(** * ng-openapi command line: configuration resolution and dispatch

    A shallow embedding of [packages/ng-openapi/src/lib/cli.ts]:
    [loadConfigFile], [isUrl], [validateInput] and [generateFromOptions],
    over a small model of the JavaScript values, exceptions and Node
    services (module cache, file system probes, console, process exit)
    that the file uses. *)

From Stdlib Require Import ZArith String Ascii DecimalString.
From stdpp Require Import base option list strings gmap.

Local Open Scope string_scope.
#[local] Set Warnings "-register-all".

(** ** JavaScript values *)

Module Js.

(** The values a configuration module can export and the command line can
    deliver.  Numbers are the integer-valued ones plus [NaN] (the only
    falsy number besides zero); objects are plain records of data
    properties (no accessors, no prototype overrides). *)
Inductive JsVal : Type :=
| JUndefined
| JNull
| JBool (b : bool)
| JNum (n : Z)
| JNaN
| JStr (s : string)
| JObj (props : gmap string JsVal).

(** What a [throw] carries: an [Error] instance, of which the code only
    reads [message], or any other value. *)
Inductive Thrown : Type :=
| ErrorObj (message : string)
| Value (v : JsVal).

(** ToBoolean: the falsy values are [undefined], [null], [false], [0],
    [NaN] and the empty string. *)
Definition truthy (v : JsVal) : bool :=
  match v with
  | JUndefined | JNull | JNaN => false
  | JBool b => b
  | JNum n => negb (n =? 0)%Z
  | JStr s => negb (String.eqb s "")
  | JObj _ => true
  end.

(** ToString, as a template literal applies it. *)
Definition to_string (v : JsVal) : string :=
  match v with
  | JUndefined => "undefined"
  | JNull => "null"
  | JBool true => "true"
  | JBool false => "false"
  | JNum n => NilZero.string_of_int (Z.to_int n)
  | JNaN => "NaN"
  | JStr s => s
  | JObj _ => "[object Object]"
  end.

(** [a || b] on already evaluated operands. *)
Definition or_else (a b : JsVal) : JsVal := if truthy a then a else b.

(** [!a] *)
Definition js_not (a : JsVal) : bool := negb (truthy a).

(** Property read [v.k].  Reading a property of [undefined] or [null]
    throws a TypeError (V8's wording); a primitive has none of the
    properties this program reads; an object yields the property or
    [undefined]. *)
Definition get (v : JsVal) (k : string) : Thrown + JsVal :=
  match v with
  | JUndefined =>
      inl (ErrorObj ("Cannot read properties of undefined (reading '" ++ k ++ "')"))
  | JNull =>
      inl (ErrorObj ("Cannot read properties of null (reading '" ++ k ++ "')"))
  | JObj props => inr (default JUndefined (props !! k))
  | _ => inr JUndefined
  end.

(** [v.k] where the read cannot throw; [undefined] otherwise. *)
Definition prop (v : JsVal) (k : string) : JsVal :=
  match get v k with
  | inr x => x
  | inl _ => JUndefined
  end.

(** [v === undefined] *)
Definition is_undefined (v : JsVal) : bool :=
  match v with
  | JUndefined => true
  | _ => false
  end.

(** An object literal. *)
Definition obj (l : list (string * JsVal)) : JsVal := JObj (list_to_map l).

End Js.
Import Js.


(** ** Strings *)

Module Str.

(** [String.prototype.toLowerCase] on the ASCII letters.  The three
    extensions the program compares against contain only letters whose
    sole upper-case form is the ASCII one, so the bytes of any other
    character can stay as they are. *)
Definition lower_char (c : ascii) : ascii :=
  let n := nat_of_ascii c in
  if (65 <=? n)%nat && (n <=? 90)%nat then ascii_of_nat (n + 32) else c.

Fixpoint toLowerCase (s : string) : string :=
  match s with
  | EmptyString => EmptyString
  | String c rest => String (lower_char c) (toLowerCase rest)
  end.

(** [s.startsWith(t)] *)
Fixpoint startsWith (s t : string) : bool :=
  match t, s with
  | EmptyString, _ => true
  | String b t', String a s' => Ascii.eqb a b && startsWith s' t'
  | String _ _, EmptyString => false
  end.

(** [s.includes(t)]: [t] occurs somewhere in [s]. *)
Fixpoint includes (s t : string) : bool :=
  startsWith s t ||
  match s with
  | EmptyString => false
  | String _ s' => includes s' t
  end.

(** [s.endsWith(t)] *)
Fixpoint endsWith (s t : string) : bool :=
  String.eqb s t ||
  match s with
  | EmptyString => false
  | String _ s' => endsWith s' t
  end.

(** [Array.prototype.includes] on an array of strings. *)
Definition array_includes (l : list string) (x : string) : bool :=
  existsb (String.eqb x) l.
#[global] Arguments array_includes : simpl never.

(** The double-quote character, for messages that contain it. *)
Definition dquote : string := String "034"%char EmptyString.

(** The line break. *)
Definition newline : string := String "010"%char EmptyString.

End Str.
Import Str.

(** ** Node: the process, the disk and the services the program calls *)

Module Node.

(** Result of running a module body: its [module.exports], or what it
    threw.  What else the code of a module may do while it is evaluated
    (print, write files, end the process) is not represented; no
    statement below is about it. *)
Inductive ModuleOutcome : Type :=
| Exports (v : JsVal)
| Raises (e : Thrown).

(** The disk as the program observes it.  [existsSync] is
    [fs.existsSync]; [resolve_filename] is the file [require.resolve]
    finds for a request ([None]: MODULE_NOT_FOUND); [run_module f c] is
    the outcome of evaluating file [f] as it is on disk now, in a process
    whose module cache is [c] (what [f] itself requires may be served
    from [c]), together with the cache that evaluation leaves;
    [ts_node_installed] says whether [ts-node/register] can be
    required; [require_stack] is what Node appends to the message of a
    request it cannot resolve: a line break, "Require stack:" and the
    files of the installation the request came from. *)
Record Disk : Type := {
  existsSync : string → bool;
  resolve_filename : string → option string;
  run_module : string → gmap string JsVal → ModuleOutcome * gmap string JsVal;
  ts_node_installed : bool;
  require_stack : string;
}.

(** What the process does that an observer can see, in order. *)
Inductive Event : Type :=
| Probe (path : string)            (* fs.existsSync(path) *)
| Evaluate (filename : string)     (* a module body was run *)
| Generate (config : JsVal)        (* generateFromConfig(config) *)
| ConsoleLog (args : list JsVal)
| ConsoleError (args : list JsVal)
| HelpText.                        (* commander wrote the help text *)

Record World : Type := {
  disk : Disk;
  cache : gmap string JsVal;       (* require.cache, by resolved filename *)
  exitCode : option Z;             (* process.exitCode *)
  trace : list Event;
}.

(** A process that has just started on disk [d]. *)
Definition boot (d : Disk) : World :=
  {| disk := d; cache := ∅; exitCode := None; trace := [] |}.

Definition with_cache (c : gmap string JsVal) (w : World) : World :=
  {| disk := disk w; cache := c; exitCode := exitCode w; trace := trace w |}.

Definition with_disk (d : Disk) (w : World) : World :=
  {| disk := d; cache := cache w; exitCode := exitCode w; trace := trace w |}.

Definition emit (e : Event) (w : World) : World :=
  {| disk := disk w; cache := cache w; exitCode := exitCode w;
     trace := trace w ++ [e] |}.

(** A URL object; the program reads only [protocol]. *)
Record URL : Type := { protocol : string }.

(** The services that do not change while the program runs.  [URL_new s]
    is [new URL(s)], [None] when the constructor throws;
    [generateFromConfig] is the generation engine of [./core], which the
    program treats as an opaque call that succeeds or throws and may
    write to the disk.  Whatever else the engine does (the modules it
    loads, what it prints) is not represented; no statement below is
    about it. *)
Class Platform : Type := {
  URL_new : string → option URL;
  path_resolve : string → string;
  path_extname : string → string;
  generateFromConfig : JsVal → Disk → option Thrown * Disk;
}.

(** How a computation ends: with a value, with an exception in flight, or
    with the process terminated. *)
Inductive Outcome (A : Type) : Type :=
| Return (a : A)
| Throw (e : Thrown)
| Exit (code : Z).
Arguments Return {A} a.
Arguments Throw {A} e.
Arguments Exit {A} code.

Definition M (A : Type) : Type := World → Outcome A * World.

#[export] Instance M_ret : MRet M := λ A a w, (Return a, w).

#[export] Instance M_bind : MBind M := λ A B f m w,
  match m w with
  | (Return a, w') => f a w'
  | (Throw e, w') => (Throw e, w')
  | (Exit c, w') => (Exit c, w')
  end.

Definition throw {A} (e : Thrown) : M A := λ w, (Throw e, w).

(** [try { body } catch (error) { handler }]: only an exception is
    caught, a terminated process stays terminated. *)
Definition try_catch {A} (body : M A) (handler : Thrown → M A) : M A := λ w,
  match body w with
  | (Throw e, w') => handler e w'
  | r => r
  end.

(** A property read inside a computation. *)
Definition read (v : JsVal) (k : string) : M JsVal :=
  match get v k with
  | inl e => throw e
  | inr x => mret x
  end.

Definition log (e : Event) : M unit := λ w, (Return (), emit e w).

Definition fs_existsSync (path : string) : M bool := λ w,
  (Return (existsSync (disk w) path), emit (Probe path) w).

(** The message of Node's MODULE_NOT_FOUND error for [request]. *)
Definition module_not_found (request : string) (w : World) : string :=
  "Cannot find module '" ++ request ++ "'" ++ require_stack (disk w).

(** [require.resolve(request)] *)
Definition require_resolve (request : string) : M string := λ w,
  match resolve_filename (disk w) request with
  | Some f => (Return f, w)
  | None => (Throw (ErrorObj (module_not_found request w)), w)
  end.

(** [delete require.cache[filename]] *)
Definition cache_delete (filename : string) : M unit := λ w,
  (Return (), with_cache (delete filename (cache w)) w).

(** [require(request)]: a cached module is served from the cache without
    touching the disk; otherwise the file is evaluated, and its exports
    are cached unless it throws. *)
Definition load_module (f : string) : M JsVal := λ w,
  match cache w !! f with
  | Some v => (Return v, w)
  | None =>
      let '(out, c') := run_module (disk w) f (cache w) in
      match out with
      | Exports v => (Return v, emit (Evaluate f) (with_cache (<[f := v]> c') w))
      | Raises e => (Throw e, emit (Evaluate f) (with_cache (delete f c') w))
      end
  end.

Definition require (request : string) : M JsVal :=
  f ← require_resolve request;
  load_module f.

(** [require("ts-node/register")]: it fails when the package is not
    installed.  What loading the package does besides making [.ts] files
    loadable (its own modules are evaluated and cached) is not
    represented. *)
Definition require_ts_node : M unit := λ w,
  if ts_node_installed (disk w) then (Return (), w)
  else (Throw (ErrorObj (module_not_found "ts-node/register" w)), w).

Definition console_log (args : list JsVal) : M unit := log (ConsoleLog args).
Definition console_error (args : list JsVal) : M unit := log (ConsoleError args).

(** [process.exit(code)] *)
Definition process_exit {A} (code : Z) : M A := λ w, (Exit code, w).

(** commander's [Command.help()]: "Output help information and exit
    immediately".  It writes the help text and ends the process with
    [process.exitCode ?? 0]; it does not return to its caller. *)
Definition program_help : M unit := λ w,
  (Exit (default 0%Z (exitCode w)), emit HelpText w).

(** The engine call, recorded with the request it was handed. *)
Definition engine {platform : Platform} (config : JsVal) : M unit := λ w,
  let '(r, d) := generateFromConfig config (disk w) in
  let w' := emit (Generate config) (with_disk d w) in
  match r with
  | None => (Return (), w')
  | Some e => (Throw e, w')
  end.

End Node.
Import Node.

(** ** The program: [cli.ts] *)

Module Cli.
Section Program.
Context {platform : Platform}.

(** A pure step that may throw, run inside a computation. *)
Definition lift {A} (r : Thrown + A) : M A :=
  match r with
  | inl e => throw e
  | inr a => mret a
  end.

(** [error instanceof Error ? error.message : error] *)
Definition cause (error : Thrown) : JsVal :=
  match error with
  | ErrorObj message => JStr message
  | Value v => v
  end.

Definition missing_properties : string :=
  "Configuration must include " ++ dquote ++ "input" ++ dquote ++ " and "
    ++ dquote ++ "output" ++ dquote ++ " properties".

(** Line 32: [configModule.default || configModule.config || configModule]. *)
Definition exportedConfig (configModule : JsVal) : Thrown + JsVal :=
  match get configModule "default" with
  | inl e => inl e
  | inr d =>
      if truthy d then inr d
      else match get configModule "config" with
           | inl e => inl e
           | inr c => inr (or_else c configModule)
           end
  end.

(** Line 34: [!config.input || !config.output]. *)
Definition lacksRequired (config : JsVal) : Thrown + bool :=
  match get config "input" with
  | inl e => inl e
  | inr i =>
      if js_not i then inr true
      else match get config "output" with
           | inl e => inl e
           | inr o => inr (js_not o)
           end
  end.

(** Lines 12-42. *)
Definition loadConfigFile (configPath : string) : M JsVal :=
  let resolvedPath := path_resolve configPath in
  found ← fs_existsSync resolvedPath;
  if negb found
  then throw (ErrorObj ("Configuration file not found: " ++ resolvedPath))
  else
    filename ← require_resolve resolvedPath;
    cache_delete filename;;
    try_catch
      ((if endsWith resolvedPath ".ts" then require_ts_node else mret ());;
       configModule ← require resolvedPath;
       config ← lift (exportedConfig configModule);
       lacking ← lift (lacksRequired config);
       if lacking : bool
       then throw (ErrorObj missing_properties)
       else mret config)
      (λ error,
         throw (ErrorObj ("Failed to load configuration file: "
                            ++ to_string (cause error)))).

(** Lines 44-51. *)
Definition isUrl (input : string) : bool :=
  match URL_new input with
  | Some _ => true
  | None => false
  end.

Definition supportedExtensions : list string := [".json"; ".yaml"; ".yml"].

(** Lines 53-76.  The second [new URL(inputPath)] parses the string that
    [isUrl] has just accepted; were it to throw, its TypeError would
    leave the function. *)
Definition validateInput (inputPath : string) : M unit :=
  if isUrl inputPath then
    match URL_new inputPath with
    | None => throw (ErrorObj "Invalid URL")
    | Some url =>
        if negb (array_includes ["http:"; "https:"] (protocol url))
        then throw (ErrorObj ("Unsupported URL protocol: " ++ protocol url
                                ++ ". Only HTTP and HTTPS are supported."))
        else mret ()
    end
  else
    found ← fs_existsSync inputPath;
    if negb found
    then throw (ErrorObj ("Input file not found: " ++ inputPath))
    else
      let extension := toLowerCase (path_extname inputPath) in
      if negb (array_includes supportedExtensions extension)
      then throw (ErrorObj ("Failed to parse "
                              ++ to_string (or_else (JStr extension) (JStr "specification"))
                              ++ ". Supported formats are .json, .yaml, and .yml."))
      else mret ().

(** Lines 92-101: the request built from the command line flags. *)
Definition flagsConfig (options : JsVal) : M JsVal :=
  input ← read options "input";
  output ← read options "output";
  dateType ← read options "dateType";
  typesOnly ← read options "typesOnly";
  mret (obj [("input", input);
             ("output", or_else output (JStr "./src/generated"));
             ("options",
              obj [("dateType", or_else dateType (JStr "Date"));
                   ("enumStyle", JStr "enum");
                   ("generateEnumBasedOnDescription", JBool true);
                   ("generateServices", JBool (js_not typesOnly))])]).

(** Lines 78-115.  The path arguments are typed [string]; commander
    delivers strings for them, and a value of another type reaches the
    callee through its string conversion. *)
Definition generateFromOptions (options : JsVal) : M unit :=
  try_catch
    (configFlag ← read options "config";
     (if truthy configFlag then
        config ← loadConfigFile (to_string configFlag);
        input ← read config "input";
        validateInput (to_string input);;
        engine config
      else
        inputFlag ← read options "input";
        if truthy inputFlag then
          validateInput (to_string inputFlag);;
          config ← flagsConfig options;
          engine config
        else
          console_error [JStr "Error: Either --config or --input option is required"];;
          program_help;;
          process_exit 1);;
     console_log [JStr "✨ Generation completed successfully!"])
    (λ error,
       console_error [JStr "❌ Generation failed:"; cause error];;
       process_exit 1).

End Program.
End Cli.
Import Cli.

(** ** A sample installation

    A POSIX platform with a stub engine that always succeeds, and disks
    given by a table of files, on which the program can be run. *)

Module Sample.

Definition is_alpha (c : ascii) : bool :=
  let n := nat_of_ascii (lower_char c) in (97 <=? n)%nat && (n <=? 122)%nat.

Definition is_scheme_char (c : ascii) : bool :=
  let n := nat_of_ascii c in
  is_alpha c || ((48 <=? n)%nat && (n <=? 57)%nat)
  || Ascii.eqb c "+" || Ascii.eqb c "-" || Ascii.eqb c ".".

(** A stand-in for the WHATWG URL parser that decides by the scheme
    alone, as the parser's scheme state reads it: a letter, then letters,
    digits, [+], [-] or [.], up to the first colon; lower-cased, colon
    included.  (The real parser may still reject what follows the
    scheme.) *)
Fixpoint scan_scheme (s acc : string) : option string :=
  match s with
  | EmptyString => None
  | String c rest =>
      if Ascii.eqb c ":" then Some (acc ++ ":")
      else if is_scheme_char c
           then scan_scheme rest (acc ++ String (lower_char c) EmptyString)
           else None
  end.

Definition parse_url (s : string) : option URL :=
  match s with
  | EmptyString => None
  | String c rest =>
      if is_alpha c
      then Build_URL <$> scan_scheme rest (String (lower_char c) EmptyString)
      else None
  end.

(** [path.posix.extname]: the part of the last path segment from its last
    dot on; empty when there is no dot, when nothing precedes the dot, or
    when the segment is [..]. *)
Definition is_slash (c : ascii) : bool := Ascii.eqb c "/".
Definition is_dot (c : ascii) : bool := Ascii.eqb c ".".

Fixpoint drop_while {A} (p : A → bool) (l : list A) : list A :=
  match l with
  | x :: l' => if p x then drop_while p l' else l
  | [] => []
  end.

Fixpoint take_until {A} (p : A → bool) (l : list A) : list A :=
  match l with
  | x :: l' => if p x then [] else x :: take_until p l'
  | [] => []
  end.

Definition extname (path : string) : string :=
  let segment := take_until is_slash (drop_while is_slash (rev (list_ascii_of_string path))) in
  let tail := take_until is_dot segment in
  let stem := drop (S (length tail)) segment in
  if existsb is_dot segment && negb (length stem =? 0)%nat
     && negb (String.eqb (string_of_list_ascii segment) "..")
  then string_of_list_ascii ("."%char :: rev tail)
  else "".

(** [path.resolve] with [/work] as the current directory, for paths
    that need no normalisation beyond a leading [./]. *)
Definition resolve (path : string) : string :=
  match path with
  | String "/" _ => path
  | String "." (String "/" rest) => "/work/" ++ rest
  | _ => "/work/" ++ path
  end.

#[export] Instance posix : Platform := {|
  URL_new := parse_url;
  path_resolve := resolve;
  path_extname := extname;
  generateFromConfig := λ _ d, (None, d);
|}.

(** A disk holding the module files [modules] (each with what evaluating
    it yields) and the other files [others]; a request resolves to the
    file of that name. *)
Definition lookup_file {A} (path : string) (files : list (string * A)) : option A :=
  snd <$> find (λ '(p, _), String.eqb p path) files.

(** The require stack of a command line installed under [/work]. *)
Definition cli_stack : string :=
  newline ++ "Require stack:" ++ newline ++ "- /work/node_modules/ng-openapi/cli.cjs".

Definition disk_of (modules : list (string * ModuleOutcome)) (others : list string) : Disk := {|
  existsSync := λ p, bool_decide (is_Some (lookup_file p modules)) || array_includes others p;
  resolve_filename := λ p, if bool_decide (is_Some (lookup_file p modules)) then Some p else None;
  run_module := λ f c,
    (default (Raises (ErrorObj ("Cannot find module '" ++ f ++ "'"))) (lookup_file f modules), c);
  ts_node_installed := true;
  require_stack := cli_stack;
|}.

(** Three configuration modules and the disks that hold them. *)
Definition petstore : JsVal :=
  obj [("input", JStr "https://petstore.swagger.io/v2/swagger.json");
       ("output", JStr "./src/api")].

Definition example_api : JsVal :=
  obj [("input", JStr "https://api.example.com/openapi.json");
       ("output", JStr "./src/generated");
       ("options", obj [("dateType", JStr "string")])].

Definition config_js : string := "/work/openapi.config.js".

Definition disk_with (configModule : ModuleOutcome) : Disk :=
  disk_of [(config_js, configModule)] ["./spec.json"; "./spec.JSON"; "./notes.txt"].


(** A CommonJS module that carries the configuration at its top level,
    next to falsy [default] and [config] properties. *)
Definition bare_module : JsVal :=
  obj [("default", JStr ""); ("config", JNull);
       ("input", JStr "./spec.json"); ("output", JStr "./src/api")].

(** The same disk without [ts-node]. *)
Definition without_ts_node (d : Disk) : Disk := {|
  existsSync := existsSync d;
  resolve_filename := resolve_filename d;
  run_module := run_module d;
  ts_node_installed := false;
  require_stack := require_stack d;
|}.

(** A disk whose configuration file takes its [input] from a second
    module, [./base], and sets [output] itself:
    [module.exports = { input: require("./base").input, output }].
    As in Node, the [require] inside the file is served from the module
    cache when [./base] is cached, and evaluates and caches it
    otherwise. *)
Definition base_js : string := "/work/base.js".

Definition requiring_base (output : string) (base : JsVal) : Disk := {|
  existsSync := λ p, String.eqb p config_js || String.eqb p base_js;
  resolve_filename := λ p,
    if String.eqb p config_js || String.eqb p base_js then Some p else None;
  run_module := λ f c,
    if String.eqb f config_js then
      let '(b, c') :=
        match c !! base_js with
        | Some v => (v, c)
        | None => (base, <[base_js := base]> c)
        end in
      (Exports (obj [("input", prop b "input"); ("output", JStr output)]), c')
    else (Exports base, c);
  ts_node_installed := true;
  require_stack := cli_stack;
|}.

(** The POSIX platform with an engine that rejects every request. *)
Definition failing_engine : Platform := {|
  URL_new := parse_url;
  path_resolve := resolve;
  path_extname := extname;
  generateFromConfig := λ _ d, (Some (ErrorObj "Invalid OpenAPI specification"), d);
|}.

End Sample.

(** ** Observations used in the statements *)

(** The requests handed to the generation engine, in order. *)
Fixpoint requests (t : list Event) : list JsVal :=
  match t with
  | [] => []
  | Generate config :: t' => config :: requests t'
  | _ :: t' => requests t'
  end.

(** The paths probed on the file system, in order. *)
Fixpoint probes (t : list Event) : list string :=
  match t with
  | [] => []
  | Probe path :: t' => path :: probes t'
  | _ :: t' => probes t'
  end.

(** Two strings that differ at most in the case of ASCII letters. *)
Definition same_ignoring_case (a b : string) : Prop :=
  toLowerCase a = toLowerCase b.

(** A request all of whose fields carry a value. *)
Definition options_populated (config : JsVal) : bool :=
  let options := prop config "options" in
  negb (is_undefined (prop options "dateType"))
  && negb (is_undefined (prop options "enumStyle"))
  && negb (is_undefined (prop options "generateEnumBasedOnDescription"))
  && negb (is_undefined (prop options "generateServices")).

Definition fully_populated (config : JsVal) : bool :=
  truthy (prop config "input") && truthy (prop config "output")
  && options_populated config.

(** What the [catch] of [loadConfigFile] rethrows for [e]. *)
Definition load_error (e : Thrown) : Thrown :=
  ErrorObj ("Failed to load configuration file: " ++ to_string (cause e)).

(** What [loadConfigFile] makes of the exports of the module it has
    evaluated: lines 32-38 under the [catch] of line 39. *)
Definition checked (configModule : JsVal) : Outcome JsVal :=
  match exportedConfig configModule with
  | inl e => Throw (load_error e)
  | inr config =>
      match lacksRequired config with
      | inl e => Throw (load_error e)
      | inr true => Throw (load_error (ErrorObj missing_properties))
      | inr false => Return config
      end
  end.

(** The object literal of lines 92-101, its property reads done. *)
Definition flags_request (options : JsVal) : JsVal :=
  obj [("input", prop options "input");
       ("output", or_else (prop options "output") (JStr "./src/generated"));
       ("options",
        obj [("dateType", or_else (prop options "dateType") (JStr "Date"));
             ("enumStyle", JStr "enum");
             ("generateEnumBasedOnDescription", JBool true);
             ("generateServices", JBool (negb (truthy (prop options "typesOnly"))))])].

(** The modules evaluated, in order. *)
Fixpoint evaluated (t : list Event) : list string :=
  match t with
  | [] => []
  | Evaluate f :: t' => f :: evaluated t'
  | _ :: t' => evaluated t'
  end.

(** The two reports of the dispatcher: line 110 and line 112. *)
Definition generation_completed : Event :=
  ConsoleLog [JStr "✨ Generation completed successfully!"].

Definition generation_failed (e : Thrown) : Event :=
  ConsoleError [JStr "❌ Generation failed:"; cause e].

(** What the dispatcher does with a request once it has one: validate its
    input (line 85 or 90), call the engine (line 87 or 103), and report
    (line 110, or the [catch] of line 111). *)
Definition validate_and_generate {platform : Platform}
    (input : JsVal) (config : JsVal) (w : World) : Outcome unit * World :=
  match validateInput (to_string input) w with
  | (Return _, w1) =>
      match engine config w1 with
      | (Return _, w2) => (Return (), emit generation_completed w2)
      | (Throw e, w2) => (Exit 1%Z, emit (generation_failed e) w2)
      | (Exit c, w2) => (Exit c, w2)
      end
  | (Throw e, w1) => (Exit 1%Z, emit (generation_failed e) w1)
  | (Exit c, w1) => (Exit c, w1)
  end.

(** A computation [m] hands the engine only requests that satisfy [P],
    and returns only values that satisfy [Q]. *)
Definition hands {A} (m : M A) (P : JsVal → Prop) (Q : A → Prop) : Prop :=
  ∀ w, ∃ new,
    requests (trace (snd (m w))) = (requests (trace w) ++ new)%list ∧
    Forall P new ∧
    match fst (m w) with Return a => Q a | _ => True end.

(** Unfolding of the monad's operations and of the Node services. *)
Ltac run1 :=
  unfold mbind, M_bind, mret, M_ret, throw, try_catch, lift, read, log,
    console_log, console_error, process_exit, program_help,
    fs_existsSync, require_resolve, cache_delete, require, load_module,
    require_ts_node, emit, with_cache, with_disk; cbn.
Ltac run := repeat (progress run1).

(** ** Strings: lemmas *)

Section StringFacts.

Lemma startsWith_app (t rest : string) : startsWith (t ++ rest) t = true.
Proof.
  induction t as [|c t IH]; simpl; [by destruct rest|].
  rewrite Ascii.eqb_refl. exact IH.
Qed.


Lemma includes_startsWith (s t : string) :
  startsWith s t = true → includes s t = true.
Proof. intros Hs. destruct s; cbn [includes]; by rewrite Hs. Qed.

Lemma includes_app (pre t post : string) : includes (pre ++ t ++ post) t = true.
Proof.
  induction pre as [|c pre IH].
  - apply includes_startsWith, (startsWith_app t post).
  - change (includes (String c (pre ++ t ++ post)) t = true).
    cbn [includes]. rewrite IH. apply orb_true_r.
Qed.

Lemma includes_suffix (pre t : string) : includes (pre ++ t) t = true.
Proof.
  pose proof (includes_app pre t "") as Hi.
  assert (Hnil : ∀ s : string, s ++ "" = s).
  { induction s as [|c s IH]; [done|].
    change (String c (s ++ "") = String c s). by rewrite IH. }
  by rewrite Hnil in Hi.
Qed.

Lemma array_includes_spec (l : list string) (x : string) :
  array_includes l x = true ↔ x ∈ l.
Proof.
  unfold array_includes. rewrite existsb_exists. split.
  - intros (y & Hy & He). apply String.eqb_eq in He. subst.
    by apply list_elem_of_In.
  - intros Hx. exists x. split; [by apply list_elem_of_In | apply String.eqb_refl].
Qed.

Lemma array_includes_false (l : list string) (x : string) :
  array_includes l x = false ↔ x ∉ l.
Proof.
  rewrite <- array_includes_spec. destruct (array_includes l x); naive_solver.
Qed.

Lemma supported_lower (e : string) :
  e ∈ supportedExtensions → toLowerCase e = e.
Proof.
  unfold supportedExtensions. rewrite !elem_of_cons, elem_of_nil.
  intros [-> | [-> | [-> | []]]]; reflexivity.
Qed.

End StringFacts.

(** ** Values and traces: lemmas *)

Section ValueFacts.

Lemma requests_app (t t' : list Event) :
  requests (t ++ t') = (requests t ++ requests t')%list.
Proof.
  induction t as [|e t IH]; [done|].
  destruct e; cbn; by rewrite ?IH.
Qed.

Lemma get_prop (v : JsVal) (k : string) (x : JsVal) :
  get v k = inr x → ∀ k', get v k' = inr (prop v k').
Proof. intros Hg k'. unfold prop. by destruct v. Qed.

Lemma get_of_truthy_prop (v : JsVal) (k : string) :
  truthy (prop v k) = true → ∀ k', get v k' = inr (prop v k').
Proof.
  intros Ht. apply (get_prop v k (prop v k)).
  unfold prop in *. by destruct (get v k).
Qed.

Lemma get_of_truthy (v : JsVal) (k : string) :
  truthy v = true → get v k = inr (prop v k).
Proof. intros Ht. unfold prop. by destruct v. Qed.

Lemma get_defined (v : JsVal) (k : string) :
  v ≠ JUndefined → v ≠ JNull → get v k = inr (prop v k).
Proof. intros Hu Hn. unfold prop. by destruct v. Qed.

End ValueFacts.

(** ** Input validation *)

Section InputValidation.
Context {platform : Platform}.

Lemma validateInput_url (s : string) (u : URL) (w : World) :
  URL_new s = Some u →
  validateInput s w =
    if array_includes ["http:"; "https:"] (protocol u)
    then (Return (), w)
    else (Throw (ErrorObj ("Unsupported URL protocol: " ++ protocol u
                             ++ ". Only HTTP and HTTPS are supported.")), w).
Proof.
  intros Hu. unfold validateInput, isUrl. rewrite Hu.
  by destruct (array_includes _ _).
Qed.

Lemma validateInput_local (s : string) (w : World) :
  URL_new s = None →
  validateInput s w =
    let w' := emit (Probe s) w in
    let extension := toLowerCase (path_extname s) in
    if existsSync (disk w) s
    then if array_includes supportedExtensions extension
         then (Return (), w')
         else (Throw (ErrorObj ("Failed to parse "
                 ++ (if decide (extension = "") then "specification" else extension)
                 ++ ". Supported formats are .json, .yaml, and .yml.")), w')
    else (Throw (ErrorObj ("Input file not found: " ++ s)), w').
Proof.
  intros Hu. unfold validateInput, isUrl. rewrite Hu.
  unfold mbind, M_bind, fs_existsSync. cbn zeta.
  destruct (existsSync (disk w) s); cbn [negb]; [|done].
  destruct (array_includes supportedExtensions _); cbn [negb]; [done|].
  unfold or_else, truthy, to_string.
  destruct (toLowerCase (path_extname s)) eqn:E; cbn; done.
Qed.

(** C1.  For every input string that parses as an absolute URL whose
    protocol is neither [http:] nor [https:], [validateInput] throws the
    "Unsupported URL protocol" error, and it does so without having probed
    the file system: the world it leaves is the one it started in, so no
    existence or extension check was made for the string. *)
Theorem validateInput_unsupported_protocol (s : string) (u : URL) (w : World) :
  URL_new s = Some u →
  protocol u ≠ "http:" →
  protocol u ≠ "https:" →
  validateInput s w =
    (Throw (ErrorObj ("Unsupported URL protocol: " ++ protocol u
                        ++ ". Only HTTP and HTTPS are supported.")), w) ∧
  probes (trace (snd (validateInput s w))) = probes (trace w).
Proof.
  intros Hu Hhttp Hhttps. rewrite (validateInput_url s u w Hu).
  assert (array_includes ["http:"; "https:"] (protocol u) = false) as ->; [|done].
  apply array_includes_false. rewrite !elem_of_cons, elem_of_nil. tauto.
Qed.

(** C7.  For every input string that does not parse as a URL,
    [validateInput] returns normally exactly when the path exists and its
    extension equals [.json], [.yaml] or [.yml] up to the case of its
    letters; a path that does not exist fails with "Input file not
    found", and an existing path with any other extension (the empty one
    included) fails with the "Supported formats" error. *)
Theorem validateInput_local_file (s : string) (w : World) :
  URL_new s = None →
  let extension := path_extname s in
  let lowered := toLowerCase extension in
  let outcome := fst (validateInput s w) in
  (outcome = Return () ↔
     existsSync (disk w) s = true ∧
     ∃ e, e ∈ [".json"; ".yaml"; ".yml"] ∧ same_ignoring_case extension e) ∧
  (existsSync (disk w) s = false →
     outcome = Throw (ErrorObj ("Input file not found: " ++ s))) ∧
  (existsSync (disk w) s = true →
     (∀ e, e ∈ [".json"; ".yaml"; ".yml"] → ¬ same_ignoring_case extension e) →
     outcome = Throw (ErrorObj ("Failed to parse "
                 ++ (if decide (lowered = "") then "specification" else lowered)
                 ++ ". Supported formats are .json, .yaml, and .yml."))).
Proof.
  intros Hu extension lowered outcome. subst outcome.
  rewrite (validateInput_local s w Hu). cbn zeta. fold extension. fold lowered.
  assert (Hin : array_includes supportedExtensions lowered = true ↔
                ∃ e, e ∈ [".json"; ".yaml"; ".yml"] ∧ same_ignoring_case extension e).
  { rewrite array_includes_spec. unfold same_ignoring_case. fold lowered. split.
    - intros He. exists lowered. split; [exact He|]. by rewrite (supported_lower _ He).
    - intros (e & He & Hs). rewrite Hs, (supported_lower e He). exact He. }
  destruct (existsSync (disk w) s); cbn.
  - destruct (array_includes supportedExtensions lowered) eqn:Ha; cbn.
    + split; [|split]; [| done |].
      * split; [intros _; split; [done | by apply Hin] | done].
      * intros _ Hno. destruct (proj1 Hin eq_refl) as (e & He & Hs). by destruct (Hno e He).
    + split; [|split]; [| done | done].
      split; [done|]. intros [_ Hex]. apply Hin in Hex. discriminate.
  - split; [|split]; [| done | done].
    split; [done | by intros [? _]].
Qed.
End InputValidation.

(** ** The loader *)

Section Loader.
Context {platform : Platform}.

Lemma loadConfigFile_evaluates (p f : string) (w : World)
    (out : ModuleOutcome) (c' : gmap string JsVal) :
  existsSync (disk w) (path_resolve p) = true →
  resolve_filename (disk w) (path_resolve p) = Some f →
  (endsWith (path_resolve p) ".ts" = true → ts_node_installed (disk w) = true) →
  run_module (disk w) f (delete f (cache w)) = (out, c') →
  fst (loadConfigFile p w) =
    match out with
    | Exports m => checked m
    | Raises e => Throw (load_error e)
    end.
Proof.
  intros Hex Hres Hts Hrun. unfold loadConfigFile. run.
  rewrite Hex. run. rewrite Hres. run.
  assert (Hts' : (if endsWith (path_resolve p) ".ts"
                  then ts_node_installed (disk w) else true) = true).
  { destruct (endsWith _ _); [by apply Hts | done]. }
  destruct (endsWith (path_resolve p) ".ts"); run;
    [rewrite Hts'|];
    run; rewrite Hres; run; rewrite lookup_delete_eq, Hrun;
    (destruct out as [m|e]; run; [|done]);
    unfold checked; destruct (exportedConfig m) as [e|config]; run; try done;
    destruct (lacksRequired config) as [e|[]]; run; done.
Qed.

Lemma lacksRequired_false (config : JsVal) :
  lacksRequired config = inr false ↔
  truthy (prop config "input") = true ∧ truthy (prop config "output") = true.
Proof.
  unfold lacksRequired, prop, js_not.
  destruct (get config "input") as [e|i]; cbn; [intuition discriminate|].
  destruct (truthy i); cbn; [|intuition discriminate].
  destruct (get config "output") as [e|o]; cbn; [intuition discriminate|].
  destruct (truthy o); cbn; intuition discriminate.
Qed.

Lemma exportedConfig_spec (m : JsVal) :
  m ≠ JUndefined → m ≠ JNull →
  exportedConfig m =
    inr (if truthy (prop m "default") then prop m "default"
         else if truthy (prop m "config") then prop m "config"
         else m).
Proof.
  intros Hu Hn. unfold exportedConfig, or_else.
  rewrite !get_defined by done.
  by destruct (truthy (prop m "default")).
Qed.

Lemma exportedConfig_reads (m config : JsVal) :
  exportedConfig m = inr config → ∀ k, get config k = inr (prop config k).
Proof.
  intros He k.
  assert (Hm : m ≠ JUndefined ∧ m ≠ JNull) by (by destruct m).
  destruct Hm as [Hu Hn].
  rewrite exportedConfig_spec in He by done. injection He as <-.
  destruct (truthy (prop m "default")) eqn:Hd; [by apply get_of_truthy|].
  destruct (truthy (prop m "config")) eqn:Hc; [by apply get_of_truthy|].
  by apply get_defined.
Qed.

Lemma lacksRequired_spec (config : JsVal) :
  (∀ k, get config k = inr (prop config k)) →
  lacksRequired config =
    inr (negb (truthy (prop config "input")) || negb (truthy (prop config "output"))).
Proof.
  intros Hg. unfold lacksRequired, js_not. rewrite !Hg.
  by destruct (truthy (prop config "input")).
Qed.

Lemma checked_spec (m config : JsVal) :
  exportedConfig m = inr config →
  checked m =
    if truthy (prop config "input") && truthy (prop config "output")
    then Return config
    else Throw (load_error (ErrorObj missing_properties)).
Proof.
  intros He. unfold checked. rewrite He.
  rewrite (lacksRequired_spec config (exportedConfig_reads m config He)).
  by destruct (truthy (prop config "input")), (truthy (prop config "output")).
Qed.

Lemma loadConfigFile_cached_entry (p f : string) (w : World) (c : gmap string JsVal) :
  resolve_filename (disk w) (path_resolve p) = Some f →
  delete f c = delete f (cache w) →
  fst (loadConfigFile p (with_cache c w)) = fst (loadConfigFile p w).
Proof.
  intros Hres Hc. unfold loadConfigFile. run.
  destruct (existsSync (disk w) (path_resolve p)); run; [|done].
  rewrite Hres. run. by rewrite Hc.
Qed.

(** Without the [delete] of line 20, [require] answers from the cache
    whatever the disk holds. *)
Lemma require_serves_cache (request f : string) (w : World) (v : JsVal) :
  resolve_filename (disk w) request = Some f →
  cache w !! f = Some v →
  require request w = (Return v, w).
Proof. intros Hres Hc. run. rewrite Hres. run. by rewrite Hc. Qed.

(** C5, as amended.  Load a configuration path, let the disk change, and
    load the same path again in the same process: the second call
    evaluates the file anew, in the module cache the first call left
    less the file's own entry, and when that evaluation yields a module
    with a valid configuration the call returns it; whatever value the
    cache holds for the file itself beforehand makes no difference.
    Only the file's own entry is discarded: what the file requires may
    still come from the cache. *)
Theorem loadConfigFile_reflects_current_file
    (p f : string) (w : World) (d2 : Disk) (m2 config2 : JsVal)
    (c2 : gmap string JsVal) :
  let w1 := snd (loadConfigFile p w) in
  let w2 := with_disk d2 w1 in
  existsSync d2 (path_resolve p) = true →
  resolve_filename d2 (path_resolve p) = Some f →
  (endsWith (path_resolve p) ".ts" = true → ts_node_installed d2 = true) →
  run_module d2 f (delete f (cache w1)) = (Exports m2, c2) →
  exportedConfig m2 = inr config2 →
  lacksRequired config2 = inr false →
  fst (loadConfigFile p w2) = Return config2 ∧
  ∀ stale : JsVal,
    fst (loadConfigFile p (with_cache (<[f := stale]> (cache w2)) w2)) = Return config2.
Proof.
  intros w1 w2 Hex Hres Hts Hrun He Hl.
  assert (Hfresh : fst (loadConfigFile p w2) = Return config2).
  { rewrite (loadConfigFile_evaluates p f w2 (Exports m2) c2); try done.
    unfold checked. by rewrite He, Hl. }
  split; [done|]. intros stale.
  rewrite (loadConfigFile_cached_entry p f w2); [done | done |].
  apply delete_insert_eq.
Qed.

(** C4, as amended.  An error raised while the configuration module is
    evaluated leaves [loadConfigFile] as an [Error] whose message is the
    fixed prefix "Failed to load configuration file: " followed by the
    cause's message; it is not swallowed.  The path is not part of the
    message. *)
Theorem loadConfigFile_wraps_evaluation_error
    (p f : string) (w : World) (e : Thrown) (c' : gmap string JsVal) :
  existsSync (disk w) (path_resolve p) = true →
  resolve_filename (disk w) (path_resolve p) = Some f →
  (endsWith (path_resolve p) ".ts" = true → ts_node_installed (disk w) = true) →
  run_module (disk w) f (delete f (cache w)) = (Raises e, c') →
  let message := "Failed to load configuration file: " ++ to_string (cause e) in
  fst (loadConfigFile p w) = Throw (ErrorObj message) ∧
  includes message (to_string (cause e)) = true.
Proof.
  intros Hex Hres Hts Hrun message.
  rewrite (loadConfigFile_evaluates p f w (Raises e) c'); try done.
  split; [done|]. apply includes_suffix.
Qed.


(** C9, as amended.  For a module value other than [undefined] and
    [null], line 32 selects the [default] export if it is truthy,
    otherwise the [config] export if it is truthy, otherwise the module's
    own value.  Presence alone does not select an export. *)
Theorem exportedConfig_priority (m : JsVal) :
  m ≠ JUndefined → m ≠ JNull →
  exportedConfig m =
    inr (if truthy (prop m "default") then prop m "default"
         else if truthy (prop m "config") then prop m "config"
         else m).
Proof. apply exportedConfig_spec. Qed.

(** C10, as amended.  For a module that evaluates to a value other than
    [undefined] and [null]: a falsy [default] export is skipped in favour
    of the [config] export, and if that is falsy too the module's own
    value is used; normalisation yields a value, and the load then either
    returns it or fails with the input/output validation message.  Only a
    module whose value is [null] or [undefined] makes normalisation
    itself fail. *)
Theorem exportedConfig_selects_by_truthiness
    (p f : string) (w : World) (m : JsVal) (c' : gmap string JsVal) :
  existsSync (disk w) (path_resolve p) = true →
  resolve_filename (disk w) (path_resolve p) = Some f →
  (endsWith (path_resolve p) ".ts" = true → ts_node_installed (disk w) = true) →
  run_module (disk w) f (delete f (cache w)) = (Exports m, c') →
  m ≠ JUndefined → m ≠ JNull →
  (truthy (prop m "default") = false →
     (truthy (prop m "config") = true → exportedConfig m = inr (prop m "config")) ∧
     (truthy (prop m "config") = false → exportedConfig m = inr m)) ∧
  ∃ config,
    exportedConfig m = inr config ∧
    (fst (loadConfigFile p w) = Return config ∨
     fst (loadConfigFile p w) =
       Throw (ErrorObj ("Failed to load configuration file: " ++ missing_properties))).
Proof.
  intros Hex Hres Hts Hrun Hu Hn.
  pose proof (exportedConfig_spec m Hu Hn) as He. split.
  - intros Hd. rewrite Hd in He. split; intros Hc; by rewrite Hc in He.
  - eexists. split; [exact He|].
    rewrite (loadConfigFile_evaluates p f w (Exports m) c'); try done.
    rewrite (checked_spec m _ He).
    destruct (_ && _); [by left | by right].
Qed.

End Loader.

(** ** Requests handed to the engine *)

Section Hands.
Context {platform : Platform}.
Context (P : JsVal → Prop).

Lemma hands_still {A} (m : M A) (Q : A → Prop) :
  (∀ w, requests (trace (snd (m w))) = requests (trace w) ∧
        match fst (m w) with Return a => Q a | _ => True end) →
  hands m P Q.
Proof.
  intros Hm w. exists []. destruct (Hm w) as [-> HQ].
  by rewrite app_nil_r.
Qed.

Lemma hands_ret {A} (a : A) (Q : A → Prop) : Q a → hands (mret a) P Q.
Proof. intros HQ. by apply hands_still. Qed.

Lemma hands_throw {A} (e : Thrown) (Q : A → Prop) : hands (throw e) P Q.
Proof. by apply hands_still. Qed.

Lemma hands_exit {A} (c : Z) (Q : A → Prop) : hands (process_exit c) P Q.
Proof. by apply hands_still. Qed.

Lemma hands_bind {A B} (m : M A) (f : A → M B) (Q : A → Prop) (R : B → Prop) :
  hands m P Q → (∀ a, Q a → hands (f a) P R) → hands (m ≫= f) P R.
Proof.
  intros Hm Hf w. unfold mbind, M_bind.
  destruct (Hm w) as (new & Htr & Hnew & HQ).
  destruct (m w) as [[a|e|c] w1]; cbn in *;
    [|exists new; by rewrite Htr..].
  destruct (Hf a HQ w1) as (new' & Htr' & Hnew' & HR).
  exists (new ++ new')%list. rewrite Htr', Htr, app_assoc.
  split; [done|]. split; [by apply Forall_app|done].
Qed.

Lemma hands_try {A} (body : M A) (handler : Thrown → M A) (Q : A → Prop) :
  hands body P Q → (∀ e, hands (handler e) P Q) → hands (try_catch body handler) P Q.
Proof.
  intros Hb Hh w. unfold try_catch.
  destruct (Hb w) as (new & Htr & Hnew & HQ).
  destruct (body w) as [[a|e|c] w1]; cbn in *;
    [exists new; by rewrite Htr | | exists new; by rewrite Htr].
  destruct (Hh e w1) as (new' & Htr' & Hnew' & HR).
  exists (new ++ new')%list. rewrite Htr', Htr, app_assoc.
  split; [done|]. split; [by apply Forall_app|done].
Qed.

Lemma hands_weaken {A} (m : M A) (Q Q' : A → Prop) :
  hands m P Q → (∀ a, Q a → Q' a) → hands m P Q'.
Proof.
  intros Hm HQ w. destruct (Hm w) as (new & Htr & Hnew & Hq).
  exists new. split; [done|]. split; [done|].
  destruct (fst (m w)); auto.
Qed.

Lemma hands_lift {A} (r : Thrown + A) : hands (lift r) P (λ a, r = inr a).
Proof. destruct r; by apply hands_still. Qed.

Lemma hands_read (v : JsVal) (k : string) :
  hands (read v k) P (λ x, get v k = inr x).
Proof. unfold read. destruct (get v k); by apply hands_still. Qed.

Lemma hands_log (e : Event) :
  (∀ config, e ≠ Generate config) → hands (log e) P (λ _, True).
Proof.
  intros He. apply hands_still. intros w. cbn. rewrite requests_app.
  destruct e; cbn; rewrite ?app_nil_r; try done. by destruct (He config).
Qed.

Lemma hands_help : hands program_help P (λ _, True).
Proof. apply hands_still. intros w. cbn. by rewrite requests_app, app_nil_r. Qed.

Lemma hands_existsSync (path : string) : hands (fs_existsSync path) P (λ _, True).
Proof. apply hands_still. intros w. cbn. by rewrite requests_app, app_nil_r. Qed.

Lemma hands_require_resolve (request : string) :
  hands (require_resolve request) P (λ _, True).
Proof.
  apply hands_still. intros w. unfold require_resolve.
  by destruct (resolve_filename _ _).
Qed.

Lemma hands_cache_delete (f : string) : hands (cache_delete f) P (λ _, True).
Proof. by apply hands_still. Qed.

Lemma hands_require (request : string) : hands (require request) P (λ _, True).
Proof.
  unfold require. eapply hands_bind; [apply hands_require_resolve|].
  intros f _. apply hands_still. intros w. unfold load_module.
  destruct (cache w !! f); [done|].
  destruct (run_module _ _ _) as [[m|e] c']; cbn;
    by rewrite requests_app, app_nil_r.
Qed.

Lemma hands_require_ts_node : hands require_ts_node P (λ _, True).
Proof.
  apply hands_still. intros w. unfold require_ts_node.
  by destruct (ts_node_installed _).
Qed.

Lemma hands_engine (config : JsVal) :
  P config → hands (engine config) P (λ _, True).
Proof.
  intros HP w. exists [config]. unfold engine.
  destruct (generateFromConfig config (disk w)) as [[e|] d]; cbn;
    rewrite requests_app; cbn; by repeat constructor.
Qed.

Lemma hands_loadConfigFile (p : string) :
  hands (loadConfigFile p) P
    (λ config, truthy (prop config "input") = true ∧
               truthy (prop config "output") = true).
Proof.
  unfold loadConfigFile.
  eapply hands_bind; [apply hands_existsSync|]. intros found _.
  destruct found; cbn [negb]; [|apply hands_throw].
  eapply hands_bind; [apply hands_require_resolve|]. intros f _.
  eapply hands_bind; [apply hands_cache_delete|]. intros _ _.
  apply hands_try; [|intros e; apply hands_throw].
  eapply hands_bind.
  { destruct (endsWith _ _); [apply hands_require_ts_node | by apply hands_ret]. }
  intros _ _.
  eapply hands_bind; [apply hands_require|]. intros m _.
  eapply hands_bind; [apply hands_lift|]. intros config _.
  eapply hands_bind; [apply hands_lift|]. intros lacking Hl.
  destruct lacking; [apply hands_throw|].
  apply hands_ret. by apply lacksRequired_false.
Qed.

Lemma hands_validateInput (s : string) : hands (validateInput s) P (λ _, True).
Proof.
  unfold validateInput. destruct (isUrl s).
  - destruct (URL_new s) as [u|]; [|apply hands_throw].
    destruct (negb _); [apply hands_throw | by apply hands_ret].
  - eapply hands_bind; [apply hands_existsSync|]. intros found _.
    destruct (negb found); [apply hands_throw|].
    destruct (negb _); [apply hands_throw | by apply hands_ret].
Qed.

End Hands.

(** ** The dispatcher *)

Section Dispatch.
Context {platform : Platform}.

Lemma flags_request_fields (options : JsVal) :
  let config := flags_request options in
  prop config "input" = prop options "input" ∧
  prop config "output" = or_else (prop options "output") (JStr "./src/generated") ∧
  prop (prop config "options") "dateType" = or_else (prop options "dateType") (JStr "Date") ∧
  prop (prop config "options") "enumStyle" = JStr "enum" ∧
  prop (prop config "options") "generateEnumBasedOnDescription" = JBool true ∧
  prop (prop config "options") "generateServices" = JBool (negb (truthy (prop options "typesOnly"))).
Proof. cbn zeta. repeat split; reflexivity. Qed.

Lemma flagsConfig_run (options : JsVal) (w : World) (x : JsVal) :
  get options "input" = inr x →
  flagsConfig options w = (Return (flags_request options), w).
Proof.
  intros Hg. unfold flagsConfig, read.
  rewrite !(get_prop options "input" x Hg). reflexivity.
Qed.

Lemma validateInput_requests (s : string) (w : World) :
  requests (trace (snd (validateInput s w))) = requests (trace w).
Proof.
  destruct (hands_validateInput (λ _, False) s w) as (new & Htr & Hnew & _).
  destruct new as [|x new]; [by rewrite app_nil_r in Htr|].
  by apply Forall_cons in Hnew as [[] _].
Qed.

Lemma generateFromOptions_usage (options : JsVal) (w : World) :
  options ≠ JUndefined → options ≠ JNull →
  truthy (prop options "config") = false →
  truthy (prop options "input") = false →
  generateFromOptions options w =
    (Exit (default 0%Z (exitCode w)),
     emit HelpText
       (emit (ConsoleError [JStr "Error: Either --config or --input option is required"]) w)).
Proof.
  intros Hu Hn Hc Hi. unfold generateFromOptions. run.
  rewrite !get_defined by done. run. rewrite Hc. run.
  rewrite Hi. by run.
Qed.

(** C2, where the code departs from the claim.  Invoked with neither a
    configuration path nor an input (the options commander builds for a
    bare [ng-openapi]: the two defaults only), in a process that has just
    started, the dispatcher prints the error line and the usage text and
    never calls the engine, as claimed; but the process ends with status
    0, not a nonzero one: [program.help()] terminates it before the
    [process.exit(1)] of line 107 is reached. *)
Theorem usage_error_exits_zero (d : Disk) :
  generateFromOptions
    (obj [("output", JStr "./src/generated"); ("dateType", JStr "Date")])
    (boot d) =
    (Exit 0%Z,
     {| disk := d; cache := ∅; exitCode := None;
        trace := [ConsoleError [JStr "Error: Either --config or --input option is required"];
                  HelpText] |}).
Proof. by rewrite generateFromOptions_usage. Qed.

Lemma generateFromOptions_flags (options : JsVal) (w : World) :
  truthy (prop options "config") = false →
  truthy (prop options "input") = true →
  requests (trace (snd (generateFromOptions options w))) =
    (requests (trace w) ++
     match fst (validateInput (to_string (prop options "input")) w) with
     | Return _ => [flags_request options]
     | _ => []
     end)%list.
Proof.
  intros Hc Hi. pose proof (get_of_truthy_prop _ _ Hi) as Hg.
  pose proof (validateInput_requests (to_string (prop options "input")) w) as Hv.
  unfold generateFromOptions. run.
  rewrite !Hg. run. rewrite Hc. run. rewrite Hi. run.
  destruct (validateInput _ w) as [[[]|e|c] w1]; cbn in *.
  - rewrite (flagsConfig_run options w1 _ (Hg "input")). unfold engine. run.
    destruct (generateFromConfig _ _) as [[e|] d]; run;
      rewrite !requests_app; cbn; rewrite ?app_nil_r; by rewrite Hv.
  - rewrite !requests_app; cbn; rewrite ?app_nil_r; by rewrite Hv.
  - by rewrite app_nil_r.
Qed.

(** C8.  In the flags-only branch (no configuration path, an input
    given) the request handed to the engine, which is handed exactly when
    input validation passes, has: the input flag as [input]; the output
    flag or else "./src/generated" as [output]; the date-type flag or
    else "Date" as [dateType]; "enum" as [enumStyle]; [true] as
    [generateEnumBasedOnDescription]; and the negation of the types-only
    flag as [generateServices]. *)
Theorem flags_only_request (options : JsVal) (w : World) :
  truthy (prop options "config") = false →
  truthy (prop options "input") = true →
  ∃ config,
    requests (trace (snd (generateFromOptions options w))) =
      (requests (trace w) ++
       match fst (validateInput (to_string (prop options "input")) w) with
       | Return _ => [config]
       | _ => []
       end)%list ∧
    prop config "input" = prop options "input" ∧
    prop config "output" = or_else (prop options "output") (JStr "./src/generated") ∧
    prop (prop config "options") "dateType" =
      or_else (prop options "dateType") (JStr "Date") ∧
    prop (prop config "options") "enumStyle" = JStr "enum" ∧
    prop (prop config "options") "generateEnumBasedOnDescription" = JBool true ∧
    prop (prop config "options") "generateServices" =
      JBool (negb (truthy (prop options "typesOnly"))).
Proof.
  intros Hc Hi. exists (flags_request options).
  split; [by apply generateFromOptions_flags | apply flags_request_fields].
Qed.

Lemma flags_request_populated (options : JsVal) :
  options_populated (flags_request options) = true.
Proof.
  unfold options_populated.
  destruct (flags_request_fields options) as (_ & _ & -> & -> & -> & ->).
  rewrite !andb_true_r. unfold or_else.
  destruct (truthy (prop options "dateType")) eqn:Hd; [|done].
  by destruct (prop options "dateType").
Qed.

Lemma generateFromOptions_requests_checked (options : JsVal) (w : World) :
  ∃ new,
    requests (trace (snd (generateFromOptions options w))) =
      (requests (trace w) ++ new)%list ∧
    Forall (λ config,
              truthy (prop config "input") = true ∧
              truthy (prop config "output") = true ∧
              (truthy (prop options "config") = false →
               options_populated config = true)) new.
Proof.
  set (P := λ config : JsVal,
              truthy (prop config "input") = true ∧
              truthy (prop config "output") = true ∧
              (truthy (prop options "config") = false →
               options_populated config = true)).
  assert (Hlog : ∀ args, hands (console_log args) P (λ _, True))
    by (intros args; by apply hands_log).
  assert (Herr : ∀ args, hands (console_error args) P (λ _, True))
    by (intros args; by apply hands_log).
  assert (Hh : hands (generateFromOptions options) P (λ _, True)).
  { unfold generateFromOptions. apply hands_try.
    - eapply hands_bind; [apply hands_read|]. intros configFlag Hcf.
      assert (Hpc : prop options "config" = configFlag) by (unfold prop; by rewrite Hcf).
      eapply (hands_bind P _ _ (λ _, True)); [|intros _ _; apply Hlog].
      destruct (truthy configFlag) eqn:Htc.
      + eapply hands_bind; [apply hands_loadConfigFile|]. intros config [Hin Hout].
        eapply hands_bind; [apply hands_read|]. intros input _.
        eapply hands_bind; [apply hands_validateInput|]. intros _ _.
        apply hands_engine. unfold P. rewrite Hpc, Htc. done.
      + eapply hands_bind; [apply hands_read|]. intros inputFlag Hif.
        assert (Hpi : prop options "input" = inputFlag) by (unfold prop; by rewrite Hif).
        destruct (truthy inputFlag) eqn:Hti.
        * eapply hands_bind; [apply hands_validateInput|]. intros _ _.
          eapply hands_bind.
          { apply (hands_still P (flagsConfig options) (λ c, c = flags_request options)).
            intros w0. by rewrite (flagsConfig_run options w0 _ Hif). }
          intros config ->. apply hands_engine. unfold P.
          destruct (flags_request_fields options) as (-> & -> & _).
          rewrite Hpi, Hti. split; [done|]. split.
          -- unfold or_else. by destruct (truthy (prop options "output")) eqn:Ho.
          -- intros _. apply flags_request_populated.
        * eapply hands_bind; [apply Herr|]. intros _ _.
          eapply hands_bind; [apply hands_help|]. intros _ _.
          apply hands_exit.
    - intros e. eapply hands_bind; [apply Herr|]. intros _ _.
      apply hands_exit. }
  destruct (Hh w) as (new & Htr & Hnew & _). by exists new.
Qed.

End Dispatch.

(** ** Runs on the sample installation *)

Section Runs.
Import Sample.

(** [ftp://x] is rejected for its protocol. *)
Lemma validateInput_unsupported_protocol_ftp :
  validateInput "ftp://x" (boot (disk_with (Exports petstore))) =
    (Throw (ErrorObj "Unsupported URL protocol: ftp:. Only HTTP and HTTPS are supported."),
     boot (disk_with (Exports petstore))) ∧
  probes (trace (snd (validateInput "ftp://x" (boot (disk_with (Exports petstore)))))) = [].
Proof.
  apply (validateInput_unsupported_protocol "ftp://x" {| protocol := "ftp:" |});
    [reflexivity | discriminate | discriminate].
Defined.

(** An upper-case extension is accepted; a missing file and a text file
    are refused, each with its own message. *)
Lemma validateInput_local_file_samples :
  fst (validateInput "./spec.JSON" (boot (disk_with (Exports petstore)))) = Return () ∧
  fst (validateInput "./missing.yaml" (boot (disk_with (Exports petstore)))) =
    Throw (ErrorObj "Input file not found: ./missing.yaml") ∧
  fst (validateInput "./notes.txt" (boot (disk_with (Exports petstore)))) =
    Throw (ErrorObj "Failed to parse .txt. Supported formats are .json, .yaml, and .yml.").
Proof.
  split; [|split].
  - apply (validateInput_local_file (platform := posix) "./spec.JSON"
             (boot (disk_with (Exports petstore))) ltac:(reflexivity)).
    split; [reflexivity|]. exists ".json". split; [|reflexivity].
    by apply array_includes_spec.
  - by apply (validateInput_local_file (platform := posix) "./missing.yaml"
                (boot (disk_with (Exports petstore))) ltac:(reflexivity)).
  - apply (validateInput_local_file (platform := posix) "./notes.txt"
             (boot (disk_with (Exports petstore))) ltac:(reflexivity));
      [reflexivity|].
    intros e He Hs. unfold same_ignoring_case in Hs.
    rewrite (supported_lower e He) in Hs. subst e.
    apply array_includes_spec in He. discriminate He.
Defined.

(** The configuration file is rewritten between two loads: the second
    load returns the [output] the file now sets. *)
Lemma loadConfigFile_reflects_current_file_sample :
  fst (loadConfigFile "openapi.config.js" (boot (requiring_base "./src/a" petstore))) =
    Return (obj [("input", JStr "https://petstore.swagger.io/v2/swagger.json");
                 ("output", JStr "./src/a")]) ∧
  fst (loadConfigFile "openapi.config.js"
         (with_disk (requiring_base "./src/b" petstore)
            (snd (loadConfigFile "openapi.config.js"
                    (boot (requiring_base "./src/a" petstore)))))) =
    Return (obj [("input", JStr "https://petstore.swagger.io/v2/swagger.json");
                 ("output", JStr "./src/b")]).
Proof.
  split; [reflexivity|].
  apply (loadConfigFile_reflects_current_file "openapi.config.js" config_js
           (boot (requiring_base "./src/a" petstore)) (requiring_base "./src/b" petstore)
           (obj [("input", JStr "https://petstore.swagger.io/v2/swagger.json");
                 ("output", JStr "./src/b")])
           (obj [("input", JStr "https://petstore.swagger.io/v2/swagger.json");
                 ("output", JStr "./src/b")])
           (delete config_js
              (cache (snd (loadConfigFile "openapi.config.js"
                             (boot (requiring_base "./src/a" petstore)))))));
    reflexivity.
Defined.

(** C5 as stated fails: the configuration file and the module it
    requires are both rewritten between two loads.  The second load
    returns the [output] of the new file with the [input] of the old
    [./base], served from the cache, while a process started on the same
    disk returns the new [input]: the result depends on an earlier
    evaluation. *)
Lemma cached_dependency_is_served :
  fst (loadConfigFile "openapi.config.js"
         (with_disk (requiring_base "./src/b" example_api)
            (snd (loadConfigFile "openapi.config.js"
                    (boot (requiring_base "./src/a" petstore)))))) =
    Return (obj [("input", JStr "https://petstore.swagger.io/v2/swagger.json");
                 ("output", JStr "./src/b")]) ∧
  fst (loadConfigFile "openapi.config.js" (boot (requiring_base "./src/b" example_api))) =
    Return (obj [("input", JStr "https://api.example.com/openapi.json");
                 ("output", JStr "./src/b")]) ∧
  JStr "https://petstore.swagger.io/v2/swagger.json" ≠
    JStr "https://api.example.com/openapi.json".
Proof. split; [reflexivity | split; [reflexivity | discriminate]]. Qed.

(** A module that throws the string "boom". *)
Lemma loadConfigFile_wraps_evaluation_error_sample :
  fst (loadConfigFile "openapi.config.js"
         (boot (disk_with (Raises (Value (JStr "boom")))))) =
    Throw (ErrorObj "Failed to load configuration file: boom") ∧
  includes "Failed to load configuration file: boom" "boom" = true.
Proof.
  apply (loadConfigFile_wraps_evaluation_error "openapi.config.js" config_js
           (boot (disk_with (Raises (Value (JStr "boom"))))) (Value (JStr "boom")) ∅);
    reflexivity.
Defined.

(** C4 as stated fails: the message for a module at
    [/work/openapi.config.js] that throws [new Error("boom")] names
    neither the resolved path nor the path as given. *)
Lemma wrapped_error_omits_path :
  fst (loadConfigFile "openapi.config.js"
         (boot (disk_with (Raises (ErrorObj "boom"))))) =
    Throw (ErrorObj "Failed to load configuration file: boom") ∧
  includes "Failed to load configuration file: boom" "/work/openapi.config.js" = false ∧
  includes "Failed to load configuration file: boom" "openapi.config.js" = false.
Proof. split; [|split]; reflexivity. Qed.


(** C9 as stated fails: a [default] export that is present, with value
    [false], is not the one selected. *)
Lemma falsy_default_export_is_skipped :
  get (obj [("default", JBool false); ("config", petstore)]) "default" = inr (JBool false) ∧
  exportedConfig (obj [("default", JBool false); ("config", petstore)]) = inr petstore ∧
  petstore ≠ JBool false.
Proof. split; [reflexivity | split; [reflexivity | discriminate]]. Qed.

(** The three ranks of the priority order. *)
Lemma exportedConfig_priority_sample :
  exportedConfig (obj [("default", example_api); ("config", petstore)]) = inr example_api ∧
  exportedConfig (obj [("default", JNum 0); ("config", petstore)]) = inr petstore ∧
  exportedConfig petstore = inr petstore.
Proof.
  split; [|split].
  - apply (exportedConfig_priority (obj [("default", example_api); ("config", petstore)]));
      discriminate.
  - apply (exportedConfig_priority (obj [("default", JNum 0); ("config", petstore)]));
      discriminate.
  - apply (exportedConfig_priority petstore); discriminate.
Defined.

(** C10 as stated fails: for [module.exports = null] normalisation
    itself throws, and the load fails with the wrapped TypeError, not
    with the input/output validation message. *)
Lemma null_module_fails_normalization :
  exportedConfig JNull =
    inl (ErrorObj "Cannot read properties of null (reading 'default')") ∧
  fst (loadConfigFile "openapi.config.js" (boot (disk_with (Exports JNull)))) =
    Throw (ErrorObj
      "Failed to load configuration file: Cannot read properties of null (reading 'default')").
Proof. split; reflexivity. Qed.

(** Falsy [default] and [config] exports: the module itself is used. *)
Lemma exportedConfig_selects_by_truthiness_sample :
  exportedConfig bare_module = inr bare_module ∧
  ∃ config,
    exportedConfig bare_module = inr config ∧
    (fst (loadConfigFile "openapi.config.js" (boot (disk_with (Exports bare_module)))) =
       Return config ∨
     fst (loadConfigFile "openapi.config.js" (boot (disk_with (Exports bare_module)))) =
       Throw (ErrorObj ("Failed to load configuration file: " ++ missing_properties))).
Proof.
  destruct (exportedConfig_selects_by_truthiness "openapi.config.js" config_js
              (boot (disk_with (Exports bare_module))) bare_module ∅)
    as [Hskip Hload];
    [reflexivity | reflexivity | by intros _ | reflexivity | discriminate | discriminate |].
  destruct (Hskip eq_refl) as [_ Hbare]. split; [by apply Hbare | exact Hload].
Defined.

(** C3 as stated fails: a configuration file with [input] and [output]
    only is handed to the engine as it is, without options. *)
Lemma config_request_without_options :
  requests (trace (snd (generateFromOptions (obj [("config", JStr "openapi.config.js")])
                          (boot (disk_with (Exports petstore)))))) = [petstore] ∧
  fully_populated petstore = false.
Proof. split; reflexivity. Qed.

(** The flags [{config: undefined, input: "./spec.json", typesOnly:
    true}]: services are off and the output is the default directory. *)
Lemma flags_only_request_types_only :
  ∃ config,
    requests (trace (snd (generateFromOptions
                (obj [("config", JUndefined); ("input", JStr "./spec.json");
                      ("typesOnly", JBool true)])
                (boot (disk_with (Exports petstore)))))) = [config] ∧
    prop config "output" = JStr "./src/generated" ∧
    prop (prop config "options") "generateServices" = JBool false.
Proof.
  destruct (flags_only_request
              (obj [("config", JUndefined); ("input", JStr "./spec.json");
                    ("typesOnly", JBool true)])
              (boot (disk_with (Exports petstore))) eq_refl eq_refl)
    as (config & Htr & _ & Hout & _ & _ & _ & Hsvc).
  exists config. split; [exact Htr|]. split; [exact Hout | exact Hsvc].
Defined.

End Runs.

(** ** Further properties of the loader *)

Section MoreLoader.
Context {platform : Platform}.

Lemma loadConfigFile_run (p f : string) (w : World) :
  existsSync (disk w) (path_resolve p) = true →
  resolve_filename (disk w) (path_resolve p) = Some f →
  loadConfigFile p w =
    let w0 := with_cache (delete f (cache w)) (emit (Probe (path_resolve p)) w) in
    if endsWith (path_resolve p) ".ts" && negb (ts_node_installed (disk w))
    then (Throw (load_error (ErrorObj (module_not_found "ts-node/register" w))), w0)
    else
      match run_module (disk w) f (delete f (cache w)) with
      | (Exports m, c') => (checked m, emit (Evaluate f) (with_cache (<[f := m]> c') w0))
      | (Raises e, c') =>
          (Throw (load_error e), emit (Evaluate f) (with_cache (delete f c') w0))
      end.
Proof.
  intros Hex Hres. unfold loadConfigFile. run.
  rewrite Hex. run. rewrite Hres. run.
  destruct (endsWith (path_resolve p) ".ts"); run;
    [destruct (ts_node_installed (disk w)); run; [|done]|];
    rewrite Hres; run; rewrite lookup_delete_eq;
    (destruct (run_module (disk w) f (delete f (cache w))) as [[m|e] c']; run; [|done]);
    unfold checked; destruct (exportedConfig m) as [e|config]; run; try done;
    destruct (lacksRequired config) as [e|[]]; run; done.
Qed.

Lemma loadConfigFile_not_found_run (p : string) (w : World) :
  existsSync (disk w) (path_resolve p) = false →
  loadConfigFile p w =
    (Throw (ErrorObj ("Configuration file not found: " ++ path_resolve p)),
     emit (Probe (path_resolve p)) w).
Proof. intros Hex. unfold loadConfigFile. run. by rewrite Hex. Qed.

Lemma loadConfigFile_unresolved_run (p : string) (w : World) :
  existsSync (disk w) (path_resolve p) = true →
  resolve_filename (disk w) (path_resolve p) = None →
  loadConfigFile p w =
    (Throw (ErrorObj (module_not_found (path_resolve p) w)),
     emit (Probe (path_resolve p)) w).
Proof.
  intros Hex Hres. unfold loadConfigFile. run.
  rewrite Hex. run. by rewrite Hres.
Qed.

(** X1.  When the resolved configuration path does not exist,
    [loadConfigFile] throws "Configuration file not found: " followed by
    the resolved path, as it is (not wrapped by the [catch] of line 39),
    having probed the path and done nothing else: the module cache is
    untouched and no module is evaluated. *)
Theorem loadConfigFile_missing_file (p : string) (w : World) :
  existsSync (disk w) (path_resolve p) = false →
  loadConfigFile p w =
    (Throw (ErrorObj ("Configuration file not found: " ++ path_resolve p)),
     emit (Probe (path_resolve p)) w) ∧
  includes ("Configuration file not found: " ++ path_resolve p) (path_resolve p) = true.
Proof.
  intros Hex. split; [by apply loadConfigFile_not_found_run | apply includes_suffix].
Qed.


(** X3.  For a [.ts] configuration file when [ts-node/register] cannot
    be required, [loadConfigFile] fails with Node's "Cannot find module
    'ts-node/register'" message (require stack included) behind the
    prefix "Failed to load configuration file: "; the cache entry of the
    file has been deleted and the file itself is never evaluated. *)
Theorem loadConfigFile_ts_node_missing (p f : string) (w : World) :
  existsSync (disk w) (path_resolve p) = true →
  resolve_filename (disk w) (path_resolve p) = Some f →
  endsWith (path_resolve p) ".ts" = true →
  ts_node_installed (disk w) = false →
  loadConfigFile p w =
    (Throw (ErrorObj
       ("Failed to load configuration file: Cannot find module 'ts-node/register'"
          ++ require_stack (disk w))),
     with_cache (delete f (cache w)) (emit (Probe (path_resolve p)) w)).
Proof.
  intros Hex Hres Hts Hno. rewrite (loadConfigFile_run p f w Hex Hres).
  cbn zeta. by rewrite Hts, Hno.
Qed.

(** X4.  After a load that reaches the evaluation of the file, the
    module cache holds under the file's resolved name the exports just
    evaluated, or nothing if the evaluation threw; the entry that was
    there before never survives, and every other entry is as the
    evaluation left it. *)
Theorem loadConfigFile_cache_after (p f : string) (w : World)
    (out : ModuleOutcome) (c' : gmap string JsVal) :
  existsSync (disk w) (path_resolve p) = true →
  resolve_filename (disk w) (path_resolve p) = Some f →
  (endsWith (path_resolve p) ".ts" = true → ts_node_installed (disk w) = true) →
  run_module (disk w) f (delete f (cache w)) = (out, c') →
  let after := cache (snd (loadConfigFile p w)) in
  after !! f = match out with Exports m => Some m | Raises _ => None end ∧
  ∀ g, g ≠ f → after !! g = c' !! g.
Proof.
  intros Hex Hres Hts Hrun after. subst after.
  rewrite (loadConfigFile_run p f w Hex Hres). cbn zeta. rewrite Hrun.
  assert (endsWith (path_resolve p) ".ts" && negb (ts_node_installed (disk w)) = false)
    as ->.
  { destruct (endsWith _ _); [by rewrite Hts | done]. }
  destruct out as [m|e]; cbn.
  - split; [apply lookup_insert_eq | intros g Hg; by rewrite lookup_insert_ne].
  - split; [apply lookup_delete_eq | intros g Hg; by rewrite lookup_delete_ne].
Qed.

(** X5.  [loadConfigFile] throws only [Error] objects, whatever the
    path and the world: the errors of lines 16 and 20 are [Error]s, and
    everything thrown inside the [try], a value a module throws that is
    not an [Error] included, leaves wrapped in a new [Error]. *)
Theorem loadConfigFile_throws_errors_only (p : string) (w : World) (e : Thrown) :
  fst (loadConfigFile p w) = Throw e → ∃ message, e = ErrorObj message.
Proof.
  assert (Herr : ∀ msg : string,
            Throw (A := JsVal) (ErrorObj msg) = Throw e → ∃ message, e = ErrorObj message).
  { intros msg [= <-]. by exists msg. }
  destruct (existsSync (disk w) (path_resolve p)) eqn:Hex;
    [|rewrite (loadConfigFile_not_found_run p w Hex); apply Herr].
  destruct (resolve_filename (disk w) (path_resolve p)) as [f|] eqn:Hres;
    [|rewrite (loadConfigFile_unresolved_run p w Hex Hres); apply Herr].
  rewrite (loadConfigFile_run p f w Hex Hres). cbn zeta.
  destruct (_ && _); [apply Herr|].
  destruct (run_module _ _ _) as [[m|e'] c']; [|apply Herr].
  unfold checked, load_error. cbn.
  destruct (exportedConfig m) as [e'|config]; [apply Herr|].
  destruct (lacksRequired config) as [e'|[]]; [apply Herr | apply Herr | done].
Qed.

(** X6.  Every configuration that [loadConfigFile] returns has a truthy
    [input] and a truthy [output]. *)
Theorem loadConfigFile_returns_valid (p : string) (w w1 : World) (config : JsVal) :
  loadConfigFile p w = (Return config, w1) →
  truthy (prop config "input") = true ∧ truthy (prop config "output") = true.
Proof.
  intros Hl.
  destruct (hands_loadConfigFile (λ _, True) p w) as (_ & _ & _ & Hq).
  by rewrite Hl in Hq.
Qed.

(** X7.  The check of line 34 cannot throw: on the value that line 32
    selected, both property reads succeed, and the check is true exactly
    when [input] or [output] is falsy. *)
Theorem lacksRequired_after_normalisation (m config : JsVal) :
  exportedConfig m = inr config →
  lacksRequired config =
    inr (negb (truthy (prop config "input")) || negb (truthy (prop config "output"))).
Proof. intros He. apply lacksRequired_spec. by apply (exportedConfig_reads m). Qed.

End MoreLoader.

(** ** Further properties of validation and dispatch *)

Section MoreDispatch.
Context {platform : Platform}.

Lemma loadConfigFile_returns (p : string) (w w1 : World) (config : JsVal) :
  loadConfigFile p w = (Return config, w1) →
  truthy (prop config "input") = true ∧ truthy (prop config "output") = true.
Proof.
  intros Hl.
  destruct (hands_loadConfigFile (λ _, True) p w) as (_ & _ & _ & Hq).
  by rewrite Hl in Hq.
Qed.

Lemma generateFromOptions_flags_run (options : JsVal) (w : World) :
  truthy (prop options "config") = false →
  truthy (prop options "input") = true →
  generateFromOptions options w =
    validate_and_generate (prop options "input") (flags_request options) w.
Proof.
  intros Hc Hi. pose proof (get_of_truthy_prop _ _ Hi) as Hg.
  unfold generateFromOptions, validate_and_generate. run.
  rewrite !Hg. run. rewrite Hc. run. rewrite Hi. run.
  destruct (validateInput _ w) as [[[]|e|c] w1]; run; try done.
  rewrite (flagsConfig_run options w1 _ (Hg "input")). run.
  by destruct (engine _ w1) as [[[]|e|c] w2].
Qed.

Lemma generateFromOptions_config_run (options : JsVal) (w : World) :
  truthy (prop options "config") = true →
  generateFromOptions options w =
    match loadConfigFile (to_string (prop options "config")) w with
    | (Return config, w1) => validate_and_generate (prop config "input") config w1
    | (Throw e, w1) => (Exit 1%Z, emit (generation_failed e) w1)
    | (Exit c, w1) => (Exit c, w1)
    end.
Proof.
  intros Hc. pose proof (get_of_truthy_prop _ _ Hc) as Hg.
  unfold generateFromOptions, validate_and_generate. run.
  rewrite !Hg. run. rewrite Hc. run.
  destruct (loadConfigFile _ w) as [[config|e|c] w1] eqn:Hl; run; try done.
  destruct (loadConfigFile_returns _ _ _ _ Hl) as [Hin _].
  rewrite (get_of_truthy_prop _ _ Hin). run.
  destruct (validateInput _ w1) as [[[]|e|c] w2]; run; try done.
  by destruct (engine _ w2) as [[[]|e|c] w3].
Qed.

Lemma evaluated_app (t t' : list Event) :
  evaluated (t ++ t') = (evaluated t ++ evaluated t')%list.
Proof.
  induction t as [|e t IH]; [done|].
  destruct e; cbn; by rewrite ?IH.
Qed.

Lemma validateInput_frame (s : string) (w : World) :
  let outcome := fst (validateInput s w) in
  let w' := snd (validateInput s w) in
  (∀ c, outcome ≠ Exit c) ∧
  disk w' = disk w ∧ cache w' = cache w ∧ exitCode w' = exitCode w ∧
  trace w' = (trace w ++ if isUrl s then [] else [Probe s])%list.
Proof.
  cbn zeta. unfold validateInput. destruct (isUrl s).
  - rewrite app_nil_r.
    destruct (URL_new s) as [u|]; [|done].
    by destruct (negb _).
  - run. destruct (existsSync (disk w) s); cbn [negb]; [|done].
    by destruct (negb _).
Qed.

Lemma validateInput_evaluated (s : string) (w : World) :
  evaluated (trace (snd (validateInput s w))) = evaluated (trace w).
Proof.
  destruct (validateInput_frame s w) as (_ & _ & _ & _ & ->).
  rewrite evaluated_app. destruct (isUrl s); cbn; by rewrite app_nil_r.
Qed.

(** X8.  An input that parses as a URL with protocol [http:] or [https:]
    is accepted without a look at the file system: [validateInput]
    returns in the world it started in, whether or not a file of that
    name exists. *)
Theorem validateInput_accepts_http (s : string) (u : URL) (w : World) :
  URL_new s = Some u →
  protocol u = "http:" ∨ protocol u = "https:" →
  validateInput s w = (Return (), w).
Proof.
  intros Hu Hp. rewrite (validateInput_url s u w Hu).
  assert (array_includes ["http:"; "https:"] (protocol u) = true) as ->; [|done].
  apply array_includes_spec. rewrite !elem_of_cons. tauto.
Qed.

(** X9.  Whatever the input, [validateInput] never ends the process and
    throws only [Error] objects; it leaves the disk, the module cache and
    [process.exitCode] as they were; and it probes the file system
    exactly once, with the path as given (not resolved), when the input
    is not a URL, and not at all when it is. *)
Theorem validateInput_footprint (s : string) (w : World) :
  let outcome := fst (validateInput s w) in
  let w' := snd (validateInput s w) in
  (∀ c, outcome ≠ Exit c) ∧
  (∀ e, outcome = Throw e → ∃ message, e = ErrorObj message) ∧
  disk w' = disk w ∧ cache w' = cache w ∧ exitCode w' = exitCode w ∧
  trace w' = (trace w ++ if isUrl s then [] else [Probe s])%list.
Proof.
  cbn zeta. destruct (validateInput_frame s w) as (Hne & Hrest).
  split; [done|]. split; [|done].
  assert (Herr : ∀ (msg : string) (e : Thrown),
            Throw (A := ()) (ErrorObj msg) = Throw e → ∃ message, e = ErrorObj message).
  { intros msg e [= <-]. by exists msg. }
  unfold validateInput. destruct (isUrl s).
  - destruct (URL_new s) as [u|]; [|apply Herr].
    destruct (negb _); [apply Herr | done].
  - run. destruct (existsSync (disk w) s); cbn [negb]; [|apply Herr].
    destruct (negb _); [apply Herr | done].
Qed.

(** X10.  No exception leaves [generateFromOptions]: it returns
    normally or ends the process, whatever the options and the world. *)
Theorem generateFromOptions_never_throws (options : JsVal) (w : World) :
  fst (generateFromOptions options w) = Return () ∨
  ∃ c, fst (generateFromOptions options w) = Exit c.
Proof.
  unfold generateFromOptions, try_catch.
  match goal with |- context [match ?b w with _ => _ end] =>
    destruct (b w) as [[[]|e|c] w1] end; run; eauto.
Qed.

(** X11.  Flags-only run, input accepted: the engine is called once with
    the request built from the flags, and the run mirrors the engine.  If
    the engine succeeds the success line is printed and the dispatcher
    returns; if it throws, the failure line with the engine's own message
    is printed and the process exits with status 1, without the success
    line. *)
Theorem flags_run_mirrors_engine (options : JsVal) (w w1 : World)
    (r : option Thrown) (d' : Disk) :
  truthy (prop options "config") = false →
  truthy (prop options "input") = true →
  validateInput (to_string (prop options "input")) w = (Return (), w1) →
  generateFromConfig (flags_request options) (disk w1) = (r, d') →
  let handed := emit (Generate (flags_request options)) (with_disk d' w1) in
  generateFromOptions options w =
    match r with
    | None =>
        (Return (),
         emit (ConsoleLog [JStr "✨ Generation completed successfully!"]) handed)
    | Some e =>
        (Exit 1%Z, emit (ConsoleError [JStr "❌ Generation failed:"; cause e]) handed)
    end.
Proof.
  intros Hc Hi Hv Hg handed.
  rewrite (generateFromOptions_flags_run options w Hc Hi).
  unfold validate_and_generate, engine. rewrite Hv, Hg. by destruct r.
Qed.

(** X12.  Flags-only run, input rejected: the process exits with status
    1 after printing the failure line with the validation error's
    message, and the engine is not called. *)
Theorem flags_run_invalid_input (options : JsVal) (w w1 : World) (e : Thrown) :
  truthy (prop options "config") = false →
  truthy (prop options "input") = true →
  validateInput (to_string (prop options "input")) w = (Throw e, w1) →
  generateFromOptions options w =
    (Exit 1%Z, emit (ConsoleError [JStr "❌ Generation failed:"; cause e]) w1) ∧
  requests (trace (snd (generateFromOptions options w))) = requests (trace w).
Proof.
  intros Hc Hi Hv.
  pose proof (validateInput_requests (to_string (prop options "input")) w) as Hr.
  rewrite (generateFromOptions_flags_run options w Hc Hi).
  unfold validate_and_generate. rewrite Hv in *. cbn in *.
  split; [done|]. by rewrite requests_app, app_nil_r.
Qed.

(** X13.  When a configuration path is given, every other flag is
    ignored: the run is the same as with the configuration flag
    alone. *)
Theorem config_flag_takes_precedence (options : JsVal) (w : World) :
  truthy (prop options "config") = true →
  generateFromOptions options w =
    generateFromOptions (obj [("config", prop options "config")]) w.
Proof.
  intros Hc.
  rewrite (generateFromOptions_config_run options w Hc).
  by rewrite (generateFromOptions_config_run (obj [("config", prop options "config")]) w).
Qed.

(** X14.  Configuration-file run, configuration loaded and its input
    accepted: the engine is called once with the loaded configuration
    itself, unchanged (no flag and no default is merged into it), and the
    run mirrors the engine as in the flags-only branch. *)
Theorem config_run_mirrors_engine (options config : JsVal) (w w1 w2 : World)
    (r : option Thrown) (d' : Disk) :
  truthy (prop options "config") = true →
  loadConfigFile (to_string (prop options "config")) w = (Return config, w1) →
  validateInput (to_string (prop config "input")) w1 = (Return (), w2) →
  generateFromConfig config (disk w2) = (r, d') →
  let handed := emit (Generate config) (with_disk d' w2) in
  generateFromOptions options w =
    match r with
    | None =>
        (Return (),
         emit (ConsoleLog [JStr "✨ Generation completed successfully!"]) handed)
    | Some e =>
        (Exit 1%Z, emit (ConsoleError [JStr "❌ Generation failed:"; cause e]) handed)
    end.
Proof.
  intros Hc Hl Hv Hg handed.
  rewrite (generateFromOptions_config_run options w Hc), Hl.
  unfold validate_and_generate, engine. rewrite Hv, Hg. by destruct r.
Qed.

(** X15.  Configuration-file run, load failed: the process exits with
    status 1 after printing the failure line with the load error's
    message; the input is not validated and the engine is not called
    (nothing happens after the load but the report). *)
Theorem config_run_load_failure (options : JsVal) (w w1 : World) (e : Thrown) :
  truthy (prop options "config") = true →
  loadConfigFile (to_string (prop options "config")) w = (Throw e, w1) →
  generateFromOptions options w =
    (Exit 1%Z, emit (ConsoleError [JStr "❌ Generation failed:"; cause e]) w1).
Proof.
  intros Hc Hl. by rewrite (generateFromOptions_config_run options w Hc), Hl.
Qed.

(** X16.  Configuration-file run, configuration loaded but its input
    rejected: the process exits with status 1 after printing the failure
    line with the validation error's message, and the engine is not
    called. *)
Theorem config_run_invalid_input (options config : JsVal) (w w1 w2 : World)
    (e : Thrown) :
  truthy (prop options "config") = true →
  loadConfigFile (to_string (prop options "config")) w = (Return config, w1) →
  validateInput (to_string (prop config "input")) w1 = (Throw e, w2) →
  generateFromOptions options w =
    (Exit 1%Z, emit (ConsoleError [JStr "❌ Generation failed:"; cause e]) w2) ∧
  requests (trace (snd (generateFromOptions options w))) = requests (trace w).
Proof.
  intros Hc Hl Hv.
  pose proof (validateInput_requests (to_string (prop config "input")) w1) as Hr.
  destruct (hands_loadConfigFile (λ _, False) (to_string (prop options "config")) w)
    as (new & Htr & Hnew & _).
  rewrite Hl in Htr. cbn in Htr.
  assert (new = []) as ->.
  { destruct new as [|x new]; [done|]. by apply Forall_cons in Hnew as [[] _]. }
  rewrite app_nil_r in Htr.
  rewrite (generateFromOptions_config_run options w Hc), Hl.
  unfold validate_and_generate. rewrite Hv in *. cbn in *.
  split; [done|]. by rewrite requests_app, app_nil_r, Hr.
Qed.

(** X17.  Without a (truthy) configuration flag, a run that does not
    hand a request to the engine (usage error, unreadable options,
    rejected input) evaluates no module and leaves the module cache as it
    was: the loader is not run. *)
Theorem no_config_no_module_evaluated (options : JsVal) (w : World) :
  truthy (prop options "config") = false →
  requests (trace (snd (generateFromOptions options w))) = requests (trace w) →
  cache (snd (generateFromOptions options w)) = cache w ∧
  evaluated (trace (snd (generateFromOptions options w))) = evaluated (trace w).
Proof.
  intros Hc Hreq.
  destruct (truthy (prop options "input")) eqn:Hi.
  - rewrite (generateFromOptions_flags options w Hc Hi) in Hreq.
    rewrite <- (app_nil_r (requests (trace w))) in Hreq at 2.
    apply app_inv_head in Hreq.
    rewrite (generateFromOptions_flags_run options w Hc Hi).
    unfold validate_and_generate.
    pose proof (validateInput_evaluated (to_string (prop options "input")) w) as Hev.
    destruct (validateInput_frame (to_string (prop options "input")) w)
      as (Hne & _ & Hca & _ & _).
    destruct (validateInput _ w) as [[[]|e|c] w1]; cbn in *.
    + discriminate Hreq.
    + split; [done|]. by rewrite evaluated_app, app_nil_r.
    + by destruct (Hne c).
  - destruct (get options "config") as [e|x] eqn:Hg.
    + unfold generateFromOptions. run. rewrite Hg. run.
      split; [done|]. by rewrite evaluated_app, app_nil_r.
    + assert (options ≠ JUndefined ∧ options ≠ JNull) as [Hu Hn]
        by (by destruct options).
      rewrite (generateFromOptions_usage options w Hu Hn Hc Hi). cbn.
      split; [done|]. by rewrite !evaluated_app, !app_nil_r.
Qed.

(** The loader hands nothing to the engine, and what it returns is what
    line 32 selected from the exports of the module it evaluated. *)
Lemma loadConfigFile_requests (p : string) (w : World) :
  requests (trace (snd (loadConfigFile p w))) = requests (trace w).
Proof.
  destruct (hands_loadConfigFile (λ _, False) p w) as (new & Htr & Hnew & _).
  destruct new as [|x new]; [by rewrite app_nil_r in Htr|].
  by apply Forall_cons in Hnew as [[] _].
Qed.

Lemma loadConfigFile_returns_export (p : string) (w w1 : World) (config : JsVal) :
  loadConfigFile p w = (Return config, w1) →
  ∃ f m c',
    resolve_filename (disk w) (path_resolve p) = Some f ∧
    run_module (disk w) f (delete f (cache w)) = (Exports m, c') ∧
    exportedConfig m = inr config.
Proof.
  destruct (existsSync (disk w) (path_resolve p)) eqn:Hex;
    [|by rewrite (loadConfigFile_not_found_run p w Hex)].
  destruct (resolve_filename (disk w) (path_resolve p)) as [f|] eqn:Hres;
    [|by rewrite (loadConfigFile_unresolved_run p w Hex Hres)].
  rewrite (loadConfigFile_run p f w Hex Hres). cbn zeta.
  destruct (_ && _); [done|].
  destruct (run_module _ _ _) as [[m|e] c'] eqn:Hrun; [|done].
  unfold checked. destruct (exportedConfig m) as [e|config'] eqn:He; [done|].
  destruct (lacksRequired config') as [e|[]]; [done | done |].
  intros [= <- _]. by exists f, m, c'.
Qed.

(** C3, as amended.  Every request handed to the engine has a truthy
    [input] and a truthy [output].  In the flags-only branch it also has
    a value in each of the four option fields.  In the configuration-file
    branch it is, unchanged, the value that line 32 selected from the
    exports of the configuration module: its options are exactly what
    the module supplied, with no check and no default. *)
Theorem engine_requests_populated (options : JsVal) (w : World) :
  ∃ new,
    requests (trace (snd (generateFromOptions options w))) =
      (requests (trace w) ++ new)%list ∧
    Forall (λ config,
              truthy (prop config "input") = true ∧
              truthy (prop config "output") = true ∧
              (truthy (prop options "config") = false →
               options_populated config = true) ∧
              (truthy (prop options "config") = true →
               ∃ f m c',
                 resolve_filename (disk w)
                   (path_resolve (to_string (prop options "config"))) = Some f ∧
                 run_module (disk w) f (delete f (cache w)) = (Exports m, c') ∧
                 exportedConfig m = inr config)) new.
Proof.
  destruct (truthy (prop options "config")) eqn:Hc.
  - rewrite (generateFromOptions_config_run options w Hc).
    pose proof (loadConfigFile_requests (to_string (prop options "config")) w) as Hlr.
    destruct (loadConfigFile _ w) as [[config|e|c] w1] eqn:Hl; cbn in Hlr.
    + unfold validate_and_generate.
      pose proof (validateInput_requests (to_string (prop config "input")) w1) as Hvr.
      destruct (validateInput _ w1) as [[[]|e|c] w2]; cbn in Hvr.
      * exists [config]. split.
        { unfold engine. destruct (generateFromConfig config (disk w2)) as [[e|] d];
            cbn; rewrite !requests_app; cbn; rewrite ?app_nil_r; by rewrite Hvr, Hlr. }
        apply Forall_cons. split; [|by apply Forall_nil].
        destruct (loadConfigFile_returns _ _ _ _ Hl) as [Hin Hout].
        split; [done|]. split; [done|]. split; [done|].
        intros _. by apply (loadConfigFile_returns_export _ _ _ _ Hl).
      * exists []. split; [|by apply Forall_nil].
        cbn. by rewrite requests_app, !app_nil_r, Hvr, Hlr.
      * exists []. split; [|by apply Forall_nil].
        cbn. by rewrite !app_nil_r, Hvr, Hlr.
    + exists []. split; [|by apply Forall_nil].
      cbn. by rewrite requests_app, !app_nil_r, Hlr.
    + exists []. split; [|by apply Forall_nil]. cbn. by rewrite app_nil_r.
  - destruct (generateFromOptions_requests_checked options w) as (new & Htr & Hnew).
    exists new. split; [done|].
    eapply Forall_impl; [exact Hnew|].
    intros config (Hin & Hout & Hpop). rewrite Hc in Hpop.
    split; [done|]. split; [done|]. split; [done|]. done.
Qed.

End MoreDispatch.

(** ** Further runs on the sample installation *)

Section MoreRuns.
Import Sample.

(** A configuration path that does not exist. *)
Lemma loadConfigFile_missing_file_sample :
  loadConfigFile "nowhere.js" (boot (disk_with (Exports petstore))) =
    (Throw (ErrorObj "Configuration file not found: /work/nowhere.js"),
     emit (Probe "/work/nowhere.js") (boot (disk_with (Exports petstore)))) ∧
  includes "Configuration file not found: /work/nowhere.js" "/work/nowhere.js" = true.
Proof.
  apply (loadConfigFile_missing_file (platform := posix) "nowhere.js"
           (boot (disk_with (Exports petstore)))).
  reflexivity.
Defined.


(** A TypeScript configuration on an installation without [ts-node]. *)
Lemma loadConfigFile_ts_node_missing_sample :
  loadConfigFile "openapi.config.ts"
    (boot (without_ts_node (disk_of [("/work/openapi.config.ts", Exports petstore)] []))) =
    (Throw (ErrorObj
       ("Failed to load configuration file: Cannot find module 'ts-node/register'"
          ++ cli_stack)),
     with_cache (delete "/work/openapi.config.ts" ∅)
       (emit (Probe "/work/openapi.config.ts")
          (boot (without_ts_node
                   (disk_of [("/work/openapi.config.ts", Exports petstore)] []))))).
Proof.
  apply (loadConfigFile_ts_node_missing (platform := posix) "openapi.config.ts"
           "/work/openapi.config.ts"
           (boot (without_ts_node
                    (disk_of [("/work/openapi.config.ts", Exports petstore)] []))));
    reflexivity.
Defined.

(** The cache after a successful load and after a module that throws. *)
Lemma loadConfigFile_cache_after_sample :
  cache (snd (loadConfigFile "openapi.config.js" (boot (disk_with (Exports petstore)))))
    !! config_js = Some petstore ∧
  cache (snd (loadConfigFile "openapi.config.js"
                (with_cache {[config_js := example_api]}
                   (boot (disk_with (Raises (ErrorObj "boom")))))))
    !! config_js = None.
Proof.
  split.
  - apply (loadConfigFile_cache_after (platform := posix) "openapi.config.js" config_js
             (boot (disk_with (Exports petstore))) (Exports petstore)
             (delete config_js ∅)); reflexivity.
  - apply (loadConfigFile_cache_after (platform := posix) "openapi.config.js" config_js
             (with_cache {[config_js := example_api]}
                (boot (disk_with (Raises (ErrorObj "boom")))))
             (Raises (ErrorObj "boom"))
             (delete config_js {[config_js := example_api]})); reflexivity.
Defined.

(** The configuration returned for the petstore module. *)
Lemma loadConfigFile_returns_valid_sample :
  truthy (prop petstore "input") = true ∧ truthy (prop petstore "output") = true.
Proof.
  apply (loadConfigFile_returns_valid (platform := posix) "openapi.config.js"
           (boot (disk_with (Exports petstore)))
           (snd (loadConfigFile "openapi.config.js" (boot (disk_with (Exports petstore)))))
           petstore).
  reflexivity.
Defined.

(** The check on a [config] export, and on a primitive module value. *)
Lemma lacksRequired_after_normalisation_sample :
  lacksRequired petstore = inr false ∧ lacksRequired (JNum 7) = inr true.
Proof.
  split.
  - apply (lacksRequired_after_normalisation (obj [("config", petstore)]) petstore).
    reflexivity.
  - apply (lacksRequired_after_normalisation (JNum 7) (JNum 7)). reflexivity.
Defined.

(** A remote specification. *)
Lemma validateInput_accepts_http_sample :
  validateInput "https://api.example.com/openapi.json"
    (boot (disk_with (Exports petstore))) =
    (Return (), boot (disk_with (Exports petstore))).
Proof.
  apply (validateInput_accepts_http (platform := posix)
           "https://api.example.com/openapi.json" {| protocol := "https:" |});
    [reflexivity | by right].
Defined.

(** A remote input, with an engine that succeeds and one that fails. *)
Lemma flags_run_mirrors_engine_sample :
  generateFromOptions (platform := posix)
    (obj [("input", JStr "https://api.example.com/openapi.json")])
    (boot (disk_with (Exports petstore))) =
    (Return (),
     {| disk := disk_with (Exports petstore); cache := ∅; exitCode := None;
        trace := [Generate (flags_request
                              (obj [("input", JStr "https://api.example.com/openapi.json")]));
                  ConsoleLog [JStr "✨ Generation completed successfully!"]] |}) ∧
  generateFromOptions (platform := failing_engine)
    (obj [("input", JStr "https://api.example.com/openapi.json")])
    (boot (disk_with (Exports petstore))) =
    (Exit 1%Z,
     {| disk := disk_with (Exports petstore); cache := ∅; exitCode := None;
        trace := [Generate (flags_request
                              (obj [("input", JStr "https://api.example.com/openapi.json")]));
                  ConsoleError [JStr "❌ Generation failed:";
                                JStr "Invalid OpenAPI specification"]] |}).
Proof.
  split.
  - apply (flags_run_mirrors_engine (platform := posix)
             (obj [("input", JStr "https://api.example.com/openapi.json")])
             (boot (disk_with (Exports petstore))) (boot (disk_with (Exports petstore)))
             None (disk_with (Exports petstore))); reflexivity.
  - apply (flags_run_mirrors_engine (platform := failing_engine)
             (obj [("input", JStr "https://api.example.com/openapi.json")])
             (boot (disk_with (Exports petstore))) (boot (disk_with (Exports petstore)))
             (Some (ErrorObj "Invalid OpenAPI specification"))
             (disk_with (Exports petstore))); reflexivity.
Defined.

(** An input file that does not exist. *)
Lemma flags_run_invalid_input_sample :
  generateFromOptions (obj [("input", JStr "./missing.yaml")])
    (boot (disk_with (Exports petstore))) =
    (Exit 1%Z,
     {| disk := disk_with (Exports petstore); cache := ∅; exitCode := None;
        trace := [Probe "./missing.yaml";
                  ConsoleError [JStr "❌ Generation failed:";
                                JStr "Input file not found: ./missing.yaml"]] |}) ∧
  requests (trace (snd (generateFromOptions (obj [("input", JStr "./missing.yaml")])
                          (boot (disk_with (Exports petstore)))))) = [].
Proof.
  apply (flags_run_invalid_input (platform := posix)
           (obj [("input", JStr "./missing.yaml")])
           (boot (disk_with (Exports petstore)))
           (emit (Probe "./missing.yaml") (boot (disk_with (Exports petstore))))
           (ErrorObj "Input file not found: ./missing.yaml")); reflexivity.
Defined.

(** A configuration path together with flags that would fail on their
    own. *)
Lemma config_flag_takes_precedence_sample :
  generateFromOptions
    (obj [("config", JStr "openapi.config.js"); ("input", JStr "./notes.txt");
          ("output", JStr "./elsewhere"); ("typesOnly", JBool true)])
    (boot (disk_with (Exports petstore))) =
  generateFromOptions (obj [("config", JStr "openapi.config.js")])
    (boot (disk_with (Exports petstore))).
Proof.
  apply (config_flag_takes_precedence (platform := posix)
           (obj [("config", JStr "openapi.config.js"); ("input", JStr "./notes.txt");
                 ("output", JStr "./elsewhere"); ("typesOnly", JBool true)])
           (boot (disk_with (Exports petstore)))).
  reflexivity.
Defined.

(** The petstore configuration, with an engine that succeeds. *)
Lemma config_run_mirrors_engine_sample :
  fst (generateFromOptions (obj [("config", JStr "openapi.config.js")])
         (boot (disk_with (Exports petstore)))) = Return () ∧
  trace (snd (generateFromOptions (obj [("config", JStr "openapi.config.js")])
                (boot (disk_with (Exports petstore))))) =
    [Probe config_js; Evaluate config_js; Generate petstore;
     ConsoleLog [JStr "✨ Generation completed successfully!"]].
Proof.
  rewrite (config_run_mirrors_engine (platform := posix)
             (obj [("config", JStr "openapi.config.js")]) petstore
             (boot (disk_with (Exports petstore)))
             (snd (loadConfigFile "openapi.config.js" (boot (disk_with (Exports petstore)))))
             (snd (loadConfigFile "openapi.config.js" (boot (disk_with (Exports petstore)))))
             None (disk_with (Exports petstore))) by reflexivity.
  split; reflexivity.
Defined.

(** A configuration module that throws. *)
Lemma config_run_load_failure_sample :
  fst (generateFromOptions (obj [("config", JStr "openapi.config.js")])
         (boot (disk_with (Raises (ErrorObj "boom"))))) = Exit 1%Z ∧
  trace (snd (generateFromOptions (obj [("config", JStr "openapi.config.js")])
                (boot (disk_with (Raises (ErrorObj "boom")))))) =
    [Probe config_js; Evaluate config_js;
     ConsoleError [JStr "❌ Generation failed:";
                   JStr "Failed to load configuration file: boom"]].
Proof.
  rewrite (config_run_load_failure (platform := posix)
             (obj [("config", JStr "openapi.config.js")])
             (boot (disk_with (Raises (ErrorObj "boom"))))
             (snd (loadConfigFile "openapi.config.js"
                     (boot (disk_with (Raises (ErrorObj "boom"))))))
             (ErrorObj "Failed to load configuration file: boom")) by reflexivity.
  split; reflexivity.
Defined.

(** A configuration whose input is an [ftp:] URL. *)
Lemma config_run_invalid_input_sample :
  fst (generateFromOptions (obj [("config", JStr "openapi.config.js")])
         (boot (disk_with (Exports (obj [("input", JStr "ftp://example.com/api.json");
                                         ("output", JStr "./src/api")]))))) = Exit 1%Z ∧
  requests (trace (snd (generateFromOptions (obj [("config", JStr "openapi.config.js")])
         (boot (disk_with (Exports (obj [("input", JStr "ftp://example.com/api.json");
                                         ("output", JStr "./src/api")]))))))) = [].
Proof.
  destruct (config_run_invalid_input (platform := posix)
           (obj [("config", JStr "openapi.config.js")])
           (obj [("input", JStr "ftp://example.com/api.json"); ("output", JStr "./src/api")])
           (boot (disk_with (Exports (obj [("input", JStr "ftp://example.com/api.json");
                                           ("output", JStr "./src/api")]))))
           (snd (loadConfigFile "openapi.config.js"
                   (boot (disk_with (Exports (obj [("input", JStr "ftp://example.com/api.json");
                                                   ("output", JStr "./src/api")]))))))
           (snd (loadConfigFile "openapi.config.js"
                   (boot (disk_with (Exports (obj [("input", JStr "ftp://example.com/api.json");
                                                   ("output", JStr "./src/api")]))))))
           (ErrorObj "Unsupported URL protocol: ftp:. Only HTTP and HTTPS are supported."))
    as [Hrun Hreq]; [reflexivity | reflexivity | reflexivity |].
  split; [by rewrite Hrun | exact Hreq].
Defined.

(** A flags-only run with a missing input, on a disk that holds a
    configuration module. *)
Lemma no_config_no_module_evaluated_sample :
  cache (snd (generateFromOptions (obj [("input", JStr "./missing.yaml")])
                (boot (disk_with (Exports petstore))))) = ∅ ∧
  evaluated (trace (snd (generateFromOptions (obj [("input", JStr "./missing.yaml")])
                           (boot (disk_with (Exports petstore)))))) = [].
Proof.
  apply (no_config_no_module_evaluated (platform := posix)
           (obj [("input", JStr "./missing.yaml")]) (boot (disk_with (Exports petstore))));
    reflexivity.
Defined.

(** A module that throws a string, and a path that does not exist. *)
Lemma loadConfigFile_throws_errors_only_sample :
  (∃ message,
     ErrorObj "Failed to load configuration file: boom" = ErrorObj message) ∧
  (∃ message,
     ErrorObj "Configuration file not found: /work/nowhere.js" = ErrorObj message).
Proof.
  split.
  - apply (loadConfigFile_throws_errors_only (platform := posix) "openapi.config.js"
             (boot (disk_with (Raises (Value (JStr "boom")))))).
    reflexivity.
  - apply (loadConfigFile_throws_errors_only (platform := posix) "nowhere.js"
             (boot (disk_with (Exports petstore)))).
    reflexivity.
Defined.

End MoreRuns.
